(** * Agent router: trajectory retrieval, instruction formatting, launch
      and orchestration

    A shallow embedding of [app/database.py], [app/activities.py] and
    [app/workflows.py].  Python values coming out of the store are modelled
    by the type [Py.value]; exceptions are explicit ([result]); statements
    sent to the store are recorded in a trace; the SQL text of the two
    queries is read as list operations over the store's tables. *)

From Stdlib Require Import String Ascii List ZArith QArith Bool Arith Lia.
From Stdlib Require Import DecimalString.
From Stdlib Require Import Sorted Permutation.
Import ListNotations.

Local Close Scope Q_scope.
Local Open Scope string_scope.
Local Open Scope list_scope.
Local Set Warnings "-register-all".

(* ------------------------------------------------------------------ *)
(** ** Exceptions and results *)
(* ------------------------------------------------------------------ *)

(** The exception classes the source distinguishes or can meet.  Every
    constructor is a subclass of Python's [Exception]; [ProgrammingError]
    is [sqlalchemy.exc.ProgrammingError] and carries [str(e)];
    [HTTPError] is [httpx.HTTPError] (transport errors and
    [HTTPStatusError]) and carries [str(e)]; [JSONDecodeError] is
    [json.JSONDecodeError]; [ActivityError] is what
    [workflow.execute_activity] raises when an activity has failed for
    good, with the activity's exception as its cause; [OtherException] is
    any other [Exception] (a driver error, an operational error, ...). *)
Inductive exn : Type :=
| ProgrammingError (msg : string)
| HTTPError (msg : string)
| JSONDecodeError
| TypeError
| AttributeError
| ValueError
| KeyError
| ActivityError (cause : exn)
| OtherException (msg : string).

Inductive result (A : Type) : Type :=
| Return (a : A)
| Raise (e : exn).
Arguments Return {A} a.
Arguments Raise {A} e.

Definition rbind {A B} (m : result A) (k : A -> result B) : result B :=
  match m with
  | Return a => k a
  | Raise e => Raise e
  end.

Declare Scope result_scope.
Delimit Scope result_scope with result.
Notation "x <- m ;; k" := (rbind m (fun x => k))
  (at level 61, m at next level, right associativity) : result_scope.

(* ------------------------------------------------------------------ *)
(** ** Python strings *)
(* ------------------------------------------------------------------ *)

Module PyStr.

(** [needle in s] for two [str]: substring test.  Strings are UTF-8 byte
    sequences; every needle of the source is ASCII, so matching on bytes
    and matching on code points agree. *)
Fixpoint contains (needle s : string) : bool :=
  if prefix needle s then true
  else match s with
       | EmptyString => false
       | String _ s' => contains needle s'
       end.

(** Worker of [replace] for a non-empty [old]: [skip] counts the bytes of
    a match that are still to be dropped. *)
Fixpoint replace_go (old new : string) (skip : nat) (s : string) : string :=
  match s with
  | EmptyString => EmptyString
  | String c s' =>
      match skip with
      | S k => replace_go old new k s'
      | O =>
          if prefix old s
          then new ++ replace_go old new (String.length old - 1) s'
          else String c (replace_go old new 0 s')
      end
  end.

(** [s.replace("", new)] puts [new] before every character and at the
    end. *)
Fixpoint intersperse_all (new s : string) : string :=
  match s with
  | EmptyString => new
  | String c s' => new ++ String c (intersperse_all new s')
  end.

(** [s.replace(old, new)]: every non-overlapping occurrence, leftmost
    first. *)
Definition replace (old new s : string) : string :=
  match old with
  | EmptyString => intersperse_all new s
  | _ => replace_go old new 0 s
  end.

(** [sep.join(parts)]. *)
Fixpoint join (sep : string) (parts : list string) : string :=
  match parts with
  | [] => ""
  | [p] => p
  | p :: rest => p ++ sep ++ join sep rest
  end.

(** [str(n)] for a non-negative [int]. *)
Definition of_nat (n : nat) : string :=
  NilZero.string_of_uint (Nat.to_uint n).

(** The line feed of ["\n"]. *)
Definition nl : string := String (ascii_of_nat 10) EmptyString.

End PyStr.

(* ------------------------------------------------------------------ *)
(** ** Python values decoded from JSON *)
(* ------------------------------------------------------------------ *)

Module Py.

(** What [json.loads] (and the driver's jsonb decoding) produces.  A
    [float] is kept as its IEEE-754 binary64 bit pattern; a [dict] keeps
    insertion order and has [str] keys. *)
Inductive value : Type :=
| None_ : value
| Bool (b : bool)
| Int (n : Z)
| Float (bits : Z)
| Str (s : string)
| List (items : list value)
| Dict (entries : list (string * value)).

Definition dict : Type := list (string * value).

(** Truth value of an object ([if x], [not x], [x and ...]). *)
Definition truthy (v : value) : bool :=
  match v with
  | None_ => false
  | Bool b => b
  | Int n => negb (n =? 0)%Z
  | Float bits => negb ((bits =? 0)%Z || (bits =? 2 ^ 63)%Z)
  | Str s => negb (s =? "")
  | List items => match items with [] => false | _ => true end
  | Dict entries => match entries with [] => false | _ => true end
  end.

(** [v == s] for a [str] literal [s]. *)
Definition eq_str (v : value) (s : string) : bool :=
  match v with Str t => t =? s | _ => false end.

(** [d.get(key)] on a [dict]: first (only) entry under [key]. *)
Fixpoint lookup (key : string) (d : dict) : option value :=
  match d with
  | [] => None
  | (k, v) :: rest => if k =? key then Some v else lookup key rest
  end.

Definition mem (key : string) (d : dict) : bool :=
  match lookup key d with Some _ => true | None => false end.

(** [d[key] = v]: overwrite in place, or append at the end. *)
Fixpoint set (key : string) (v : value) (d : dict) : dict :=
  match d with
  | [] => [(key, v)]
  | (k, w) :: rest =>
      if k =? key then (k, v) :: rest else (k, w) :: set key v rest
  end.

(** [key in v] for a [str] literal [key]: key test on a [dict], element
    test on a [list], substring test on a [str]; [TypeError] on anything
    that is not a container. *)
Definition contains (key : string) (v : value) : result bool :=
  match v with
  | Dict d => Return (mem key d)
  | List items => Return (existsb (fun x => eq_str x key) items)
  | Str s => Return (PyStr.contains key s)
  | _ => Raise TypeError
  end.

(** [v[key]] for a [str] literal [key]. *)
Definition getitem (v : value) (key : string) : result value :=
  match v with
  | Dict d =>
      match lookup key d with
      | Some x => Return x
      | None => Raise KeyError
      end
  | _ => Raise TypeError
  end.

(** [v.get(key, default)]: only a [dict] has the method. *)
Definition get (v : value) (key : string) (default : value) : result value :=
  match v with
  | Dict d =>
      match lookup key d with
      | Some x => Return x
      | None => Return default
      end
  | _ => Raise AttributeError
  end.

(** [v.replace(old, new)]: only a [str] has the method. *)
Definition replace (v : value) (old new : string) : result string :=
  match v with
  | Str s => Return (PyStr.replace old new s)
  | _ => Raise AttributeError
  end.

End Py.

(* ------------------------------------------------------------------ *)
(** ** The trajectory store *)
(* ------------------------------------------------------------------ *)

(** A row of table [trajectory], with the columns the query reads.
    [error], [run_settings] and [org_id] are nullable; a timestamp is a
    number of microseconds. *)
Record trajectory : Type := {
  t_id : string;
  t_start_url : string;
  t_objective : string;
  t_status : string;
  t_error : option string;
  t_run_settings : option Py.value;
  t_org_id : option string;
  t_created_at : Z
}.

(** A row of table [trajectory_event]; [data] is a nullable jsonb value. *)
Record trajectory_event : Type := {
  te_trajectory_id : string;
  te_index : Z;
  te_type : string;
  te_data : option Py.value
}.

(** What a statement may fail with, statement by statement: [None] means
    the statement runs (a missing relation, a missing permission, a lost
    connection, an aborted transaction).  The record allows every
    combination, also those one session cannot show (after a failed
    statement the transaction is aborted and the next statement fails
    too): what is proved for all of them holds for those that occur. *)
Record faults : Type := {
  create_extension_fault : option exn;
  commit_fault : option exn;
  query_fault : option exn;
  events_fault : option exn
}.

Record database : Type := {
  trajectory_table : list trajectory;
  trajectory_event_table : list trajectory_event;
  db_faults : faults
}.

(** The statements [session] sends to the store. *)
Inductive statement : Type :=
| CreateExtension
| Commit
| CandidateQuery (start_url objective org_id : string)
| EventsQuery (trajectory_id : string).

Definition no_faults : faults :=
  {| create_extension_fault := None; commit_fault := None;
     query_fault := None; events_fault := None |}.

(** A computation that leaves a trace of events of type [E]: the events,
    in order, and how it ended. *)
Definition traced (E A : Type) : Type := (list E * result A)%type.

Definition sret {E A} (a : A) : traced E A := ([], Return a).
Definition sraise {E A} (e : exn) : traced E A := ([], Raise e).

Definition sbind {E A B} (m : traced E A) (k : A -> traced E B)
  : traced E B :=
  match m with
  | (tr, Return a) => let (tr', r) := k a in (tr ++ tr', r)
  | (tr, Raise e) => (tr, Raise e)
  end.

(** [try: m except Exception as e: h e]. *)
Definition try_except {E A} (m : traced E A) (h : exn -> traced E A)
  : traced E A :=
  match m with
  | (tr, Return a) => (tr, Return a)
  | (tr, Raise e) => let (tr', r) := h e in (tr ++ tr', r)
  end.

(** Running a computation that leaves no trace. *)
Definition lift {E A} (r : result A) : traced E A := ([], r).

Declare Scope traced_scope.
Delimit Scope traced_scope with traced.
Notation "x <- m ;; k" := (sbind m (fun x => k))
  (at level 61, m at next level, right associativity) : traced_scope.

(** A computation that talks to the store: the trace is the statements it
    sent. *)
Definition session (A : Type) : Type := traced statement A.

(** [session.execute(stmt)] / [session.commit()]: the statement is sent,
    and fails when the store says so. *)
Definition execute {A} (stmt : statement) (fault : option exn) (rows : A)
  : session A :=
  match fault with
  | Some e => ([stmt], Raise e)
  | None => ([stmt], Return rows)
  end.

(** *** jsonb operators *)

(** [j -> 'key']: the member of a JSON object, SQL NULL otherwise. *)
Definition jsonb_get (j : option Py.value) (key : string) : option Py.value :=
  match j with
  | Some (Py.Dict d) => Py.lookup key d
  | _ => None
  end.

(** A generic insertion sort, for [ORDER BY]: [before a b] says that [a]
    may stand before [b]. *)
Section OrderBy.
Context {A : Type} (before : A -> A -> bool).

Fixpoint insert_by (x : A) (l : list A) : list A :=
  match l with
  | [] => [x]
  | y :: l' => if before x y then x :: y :: l' else y :: insert_by x l'
  end.

Fixpoint order_by (l : list A) : list A :=
  match l with
  | [] => []
  | x :: l' => insert_by x (order_by l')
  end.
End OrderBy.

(* ------------------------------------------------------------------ *)
(** ** Library functions the source calls *)
(* ------------------------------------------------------------------ *)

(** Functions of PostgreSQL, of Python's standard library and of httpx
    that the source calls and that are not part of the repository.  They
    are parameters of the model: every theorem holds whatever they
    compute. *)
Class Library : Type := {
  (** pg_trgm's [similarity(a, b)], a number between 0 and 1. *)
  similarity : string -> string -> Q;
  (** The text [->>] gives for a jsonb number, array or object. *)
  jsonb_out : Py.value -> string;
  (** [json.loads(s)]; [None] stands for [json.JSONDecodeError]. *)
  json_loads : string -> option Py.value;
  (** [json.dumps(v, ensure_ascii=False)]. *)
  json_dumps : Py.value -> string;
  (** [dict(items)] for a non-empty [list] (a sequence of pairs); [None]
      stands for the [TypeError] or [ValueError] of a malformed item. *)
  dict_of_list : list Py.value -> option Py.dict;
  (** [str(e)] for the [httpx.HTTPStatusError] that
      [response.raise_for_status()] raises, from status code and URL. *)
  status_error_message : Z -> string -> string
}.

(* ------------------------------------------------------------------ *)
(** ** [app/database.py]: class [TrajectoryDatabase] *)
(* ------------------------------------------------------------------ *)

Section TrajectoryDatabase.
Context {L : Library}.

(** [j ->> 'key']: the member as text; SQL NULL for a missing member and
    for JSON null. *)
Definition jsonb_get_text (j : option Py.value) (key : string)
  : option string :=
  match jsonb_get j key with
  | None => None
  | Some Py.None_ => None
  | Some (Py.Str s) => Some s
  | Some (Py.Bool true) => Some "true"
  | Some (Py.Bool false) => Some "false"
  | Some v => Some (jsonb_out v)
  end.

(** [x = 'lit'] in a WHERE clause: NULL does not pass. *)
Definition text_is (x : option string) (lit : string) : bool :=
  match x with
  | Some s => s =? lit
  | None => false
  end.

(** [x LIKE '%lit%'] for a literal without wildcard characters. *)
Definition text_like (x : option string) (lit : string) : bool :=
  match x with
  | Some s => PyStr.contains lit s
  | None => false
  end.

(** The row condition of the EXISTS subquery, for trajectory [t]. *)
Definition answer_event_of (t : trajectory) (te : trajectory_event) : bool :=
  let event := jsonb_get (te_data te) "event" in
  (te_trajectory_id te =? t_id t)
  && (te_type te =? "AgentEvent")
  && text_is (jsonb_get_text event "kind") "tool_result"
  && text_is (jsonb_get_text (jsonb_get event "tool_req") "tool_name") "answer"
  && text_like (jsonb_get_text event "result") "success=True".

(** [a > b] on scores. *)
Definition score_gt (a b : Q) : bool :=
  match (a ?= b)%Q with Gt => true | _ => false end.

(** The WHERE clause of the candidate query. *)
Definition candidate_where (db : database)
    (start_url objective org_id : string) (t : trajectory) : bool :=
  (t_start_url t =? start_url)
  && (t_status t =? "completed")
  && match t_error t with None => true | Some _ => false end
  && text_is (jsonb_get_text (jsonb_get (t_run_settings t) "web") "headless")
             "true"
  && score_gt (similarity (t_objective t) objective) (1 # 10)
  && text_is (t_org_id t) org_id
  && existsb (answer_event_of t) (trajectory_event_table db).

(** [ORDER BY similarity(t.objective, :objective) DESC, t.created_at DESC]:
    [a] may stand before [b]. *)
Definition candidate_before (objective : string) (a b : trajectory) : bool :=
  match (similarity (t_objective a) objective
         ?= similarity (t_objective b) objective)%Q with
  | Gt => true
  | Lt => false
  | Eq => (t_created_at b <=? t_created_at a)%Z
  end.

(** The ranked candidates (before LIMIT). *)
Definition candidates (db : database) (start_url objective org_id : string)
  : list trajectory :=
  order_by (candidate_before objective)
    (filter (candidate_where db start_url objective org_id)
            (trajectory_table db)).

(** The select list: [t.id, t.start_url, t.objective, sim_score]. *)
Definition candidate_row : Type := (string * string * string * Q)%type.

Definition select_candidate (objective : string) (t : trajectory)
  : candidate_row :=
  (t_id t, t_start_url t, t_objective t,
   similarity (t_objective t) objective).

(** [session.execute(query, params).fetchone()]: [LIMIT 1]. *)
Definition candidate_query (db : database)
    (start_url objective org_id : string) : option candidate_row :=
  hd_error (map (select_candidate objective)
                (candidates db start_url objective org_id)).

(** The events query: rows [(index, tool_req, tool_result)], jsonb columns
    decoded by the driver (SQL NULL and JSON null both give [None]). *)
Definition event_row : Type := (Z * Py.value * Py.value)%type.

Definition decode_column (j : option Py.value) : Py.value :=
  match j with
  | Some v => v
  | None => Py.None_
  end.

Definition events_where (trajectory_id : string) (te : trajectory_event)
  : bool :=
  (te_trajectory_id te =? trajectory_id)
  && (te_type te =? "AgentEvent")
  && text_is (jsonb_get_text (jsonb_get (te_data te) "event") "kind")
             "tool_result".

Definition select_event (te : trajectory_event) : event_row :=
  let event := jsonb_get (te_data te) "event" in
  (te_index te,
   decode_column (jsonb_get event "tool_req"),
   decode_column (jsonb_get event "result")).

Definition events_query (db : database) (trajectory_id : string)
  : list event_row :=
  map select_event
    (order_by (fun a b => (te_index a <=? te_index b)%Z)
       (filter (events_where trajectory_id) (trajectory_event_table db))).

(** *** The loop over the events *)

(** [if not tool_req_data: continue], then the [isinstance(..., str)]
    branch with its [continue] on a decoding error.  [None] is
    [continue]. *)
Definition load_tool_req (tool_req_data : Py.value) : option Py.value :=
  if negb (Py.truthy tool_req_data) then None
  else match tool_req_data with
       | Py.Str s => json_loads s
       | _ => Some tool_req_data
       end.

(** The [isinstance(tool_result_data, str)] branch: a decoding error
    gives [None]. *)
Definition load_tool_result (tool_result_data : Py.value) : Py.value :=
  match tool_result_data with
  | Py.Str s =>
      match json_loads s with
      | Some v => v
      | None => Py.None_
      end
  | _ => tool_result_data
  end.

(** [tool_req_data.get("tool_name", "unknown") if tool_req_data else
    "unknown"]. *)
Definition tool_name_of (tool_req_data : Py.value) : result Py.value :=
  if Py.truthy tool_req_data
  then Py.get tool_req_data "tool_name" (Py.Str "unknown")
  else Return (Py.Str "unknown").

(** [tool_req_data.get("args", {}) if tool_req_data else {}]. *)
Definition tool_args_of (tool_req_data : Py.value) : result Py.value :=
  if Py.truthy tool_req_data
  then Py.get tool_req_data "args" (Py.Dict [])
  else Return (Py.Dict []).

(** [tool_name == "answer" or "answer" in tool_name]. *)
Definition is_answer (tool_name : Py.value) : result bool :=
  if Py.eq_str tool_name "answer" then Return true
  else Py.contains "answer" tool_name.

(** [tool_name.replace("_localizer_web", "").replace("_web", "")]. *)
Definition simplify_name (tool_name : Py.value) : result string :=
  (s <- Py.replace tool_name "_localizer_web" "" ;;
   Py.replace (Py.Str s) "_web" "")%result.

(** [dict(tool_args)]: a copy of a [dict]; an empty [list] or [str] gives
    the empty [dict]; a non-empty [str] is a sequence of one-character
    strings and raises [ValueError]; what is not iterable raises
    [TypeError]. *)
Definition dict_of (tool_args : Py.value) : result Py.dict :=
  match tool_args with
  | Py.Dict d => Return d
  | Py.List [] => Return []
  | Py.List items =>
      match dict_of_list items with
      | Some d => Return d
      | None => Raise TypeError
      end
  | Py.Str s => if s =? "" then Return [] else Raise ValueError
  | _ => Raise TypeError
  end.

(** [tool_result_data and key in tool_result_data]. *)
Definition result_has (tool_result_data : Py.value) (key : string)
  : result bool :=
  if Py.truthy tool_result_data then Py.contains key tool_result_data
  else Return false.

(** The block under [# Add coordinates from localizer_output]. *)
Definition add_coordinates (tool_result_data : Py.value)
    (action_details : Py.dict) : result Py.dict :=
  (has <- result_has tool_result_data "localizer_output" ;;
   if has : bool then
     localizer_output <- Py.getitem tool_result_data "localizer_output" ;;
     has_x <- Py.contains "x" localizer_output ;;
     has_y <- (if has_x : bool then Py.contains "y" localizer_output
               else Return false) ;;
     if has_y : bool then
       x <- Py.getitem localizer_output "x" ;;
       y <- Py.getitem localizer_output "y" ;;
       Return (Py.set "coordinates" (Py.Dict [("x", x); ("y", y)])
                      action_details)
     else Return action_details
   else Return action_details)%result.

(** The block under [# Add viewport size if available]. *)
Definition add_viewport_size (tool_result_data : Py.value)
    (action_details : Py.dict) : result Py.dict :=
  (has <- result_has tool_result_data "viewport_size" ;;
   if has : bool then
     v <- Py.getitem tool_result_data "viewport_size" ;;
     Return (Py.set "viewport_size" v action_details)
   else Return action_details)%result.

(** The block under [# Add any other useful result data]. *)
Definition add_element (tool_result_data : Py.value)
    (action_details : Py.dict) : result Py.dict :=
  (has <- result_has tool_result_data "element" ;;
   if has : bool then
     if Py.mem "element" action_details then Return action_details
     else
       v <- Py.getitem tool_result_data "element" ;;
       Return (Py.set "element" v action_details)
   else Return action_details)%result.

(** What one pass of the loop body does with an event: [continue], or a
    step to append, described by its simplified name and its details. *)
Inductive action : Type :=
| Continue
| Step (simplified_name : string) (action_details : Py.dict).

Definition event_action (ev : event_row) : result action :=
  let '(_, tool_req_data, tool_result_data) := ev in
  match load_tool_req tool_req_data with
  | None => Return Continue
  | Some tool_req_data =>
      let tool_result_data := load_tool_result tool_result_data in
      (tool_name <- tool_name_of tool_req_data ;;
       tool_args <- tool_args_of tool_req_data ;;
       answer <- is_answer tool_name ;;
       if answer : bool then Return Continue
       else
         simplified_name <- simplify_name tool_name ;;
         action_details <- dict_of tool_args ;;
         action_details <- add_coordinates tool_result_data action_details ;;
         action_details <- add_viewport_size tool_result_data action_details ;;
         action_details <- add_element tool_result_data action_details ;;
         Return (Step simplified_name action_details))%result
  end.

(** The f-string appended to [trajectory_steps]. *)
Definition step_line (step_num : nat) (simplified_name : string)
    (action_details : Py.dict) : string :=
  PyStr.of_nat step_num ++ ". " ++ simplified_name ++ "("
  ++ json_dumps (Py.Dict action_details) ++ ")".

(** The [for] loop, from the state [(trajectory_steps, step_num)]. *)
Fixpoint format_events (events : list event_row)
    (trajectory_steps : list string) (step_num : nat)
  : result (list string) :=
  match events with
  | [] => Return trajectory_steps
  | ev :: rest =>
      match event_action ev with
      | Raise e => Raise e
      | Return Continue => format_events rest trajectory_steps step_num
      | Return (Step simplified_name action_details) =>
          format_events rest
            (trajectory_steps
             ++ [step_line step_num simplified_name action_details])
            (S step_num)
      end
  end.

(** *** [get_similar_trajectory] *)

Definition placeholders : list string :=
  ["your-org-id-here"; "test"; "example"].

(** [if not org_id] on an [Optional[str]]. *)
Definition org_id_missing (org_id : option string) : bool :=
  match org_id with
  | None => true
  | Some s => s =? ""
  end.

(** [org_id in ['your-org-id-here', 'test', 'example']]. *)
Definition org_id_placeholder (org_id : string) : bool :=
  existsb (String.eqb org_id) placeholders.

(** The body of the outer [try], inside [with self.SessionLocal()]. *)
Definition get_similar_trajectory_body (db : database)
    (task_objective start_url : string) (org_id : option string)
  : session (option string) :=
  let f := db_faults db in
  (_ <- try_except
         (_ <- execute CreateExtension (create_extension_fault f) tt ;;
          execute Commit (commit_fault f) tt)
         (fun _ => sret tt) ;;
   if org_id_missing org_id then sret None
   else
     let org_id := match org_id with Some s => s | None => "" end in
     if org_id_placeholder org_id then sret None
     else
       result <- execute (CandidateQuery start_url task_objective org_id)
                   (query_fault f)
                   (candidate_query db start_url task_objective org_id) ;;
       match result with
       | None => sret None
       | Some (trajectory_id, _, _, _) =>
           events <- execute (EventsQuery trajectory_id) (events_fault f)
                       (events_query db trajectory_id) ;;
           match events with
           | [] => sret None
           | _ =>
               trajectory_steps <- lift (format_events events [] 1) ;;
               sret (Some (PyStr.join PyStr.nl trajectory_steps))
           end
       end)%traced.

(** The two [except] clauses. *)
Definition get_similar_trajectory_handler (e : exn)
  : session (option string) :=
  match e with
  | ProgrammingError msg =>
      if PyStr.contains "does not exist" msg then sret None else sraise e
  | _ => sret None
  end.

Definition get_similar_trajectory (db : database)
    (task_objective start_url : string) (org_id : option string)
  : session (option string) :=
  try_except (get_similar_trajectory_body db task_objective start_url org_id)
             get_similar_trajectory_handler.

End TrajectoryDatabase.

(** [format_trajectory_as_instructions]: the header built by the [+=]
    lines. *)
Definition header : string :=
  PyStr.nl ++ "# CRITICAL: Execute the reference trajectory EXACTLY"
  ++ PyStr.nl ++ PyStr.nl
  ++ "⚠️ DO NOT answer or make assumptions before executing ALL trajectory steps."
  ++ PyStr.nl ++ PyStr.nl
  ++ "You MUST:" ++ PyStr.nl
  ++ "1. Execute EVERY step from the trajectory below with the provided coordinates"
  ++ PyStr.nl
  ++ "2. Use multiple tool_calls in a SINGLE response to run many steps at once"
  ++ PyStr.nl
  ++ "3. Wait for observations before answering" ++ PyStr.nl
  ++ "4. ONLY answer after completing the trajectory and seeing the actual data"
  ++ PyStr.nl ++ PyStr.nl
  ++ "## Reference Trajectory (execute with exact coordinates):"
  ++ PyStr.nl ++ PyStr.nl.

(** The marker looked for by the [# If trajectory is already formatted]
    test. *)
Definition marker : string := "## Similar Trajectory".

Definition format_trajectory_as_instructions (trajectory : string) : string :=
  if trajectory =? "" then ""
  else if PyStr.contains marker trajectory then trajectory
  else header ++ trajectory.

(* ------------------------------------------------------------------ *)
(** ** [app/activities.py] *)
(* ------------------------------------------------------------------ *)

(** [Task] of [app/models.py], as the dict [agent_request.task.dict()]. *)
Record task : Type := {
  objective : string;
  start_url : string
}.

(** The part of [app/config.py] that [launch_agent] reads. *)
Record config : Type := {
  AGENT_PLATFORM_URL : string;
  AGENT_NAME : string;
  AGENT_API_TOKEN : string;
  AGENT_USER_SUB : string;
  AGENT_USER_ORG : string
}.

(** The POST request [launch_agent] builds. *)
Record request : Type := {
  req_url : string;
  req_task : task;
  req_is_public : bool;
  req_headers : list (string * string)
}.

(** An HTTP response: status code and body. *)
Record response : Type := {
  status_code : Z;
  body : string
}.

Section Activities.
Context {L : Library}.

Definition retrieve_trajectory (db : database) (t : task)
    (org_id : option string) : session task :=
  (trajectory <- get_similar_trajectory db (objective t) (start_url t) org_id ;;
   match trajectory with
   | Some trajectory =>
       if trajectory =? "" then sret t
       else
         let trajectory_instructions :=
           format_trajectory_as_instructions trajectory in
         let enhanced_objective :=
           (objective t ++ trajectory_instructions)%string in
         sret {| objective := enhanced_objective; start_url := start_url t |}
   | None => sret t
   end)%traced.

(** The headers: the optional ones are added when configured. *)
Definition launch_headers (cfg : config) : list (string * string) :=
  [("Content-Type", "application/json")]
  ++ (if AGENT_API_TOKEN cfg =? "" then []
      else [("Authorization", ("Bearer " ++ AGENT_API_TOKEN cfg)%string)])
  ++ (if AGENT_USER_SUB cfg =? "" then []
      else [("X-User-Sub", AGENT_USER_SUB cfg)])
  ++ (if AGENT_USER_ORG cfg =? "" then []
      else [("X-User-Org", AGENT_USER_ORG cfg)]).

Definition launch_request (cfg : config) (t : task) (is_public : bool)
  : request :=
  {| req_url := (AGENT_PLATFORM_URL cfg ++ "/api/v1/agents/"
                 ++ AGENT_NAME cfg ++ "/trajectories")%string;
     req_task := {| objective := objective t; start_url := start_url t |};
     req_is_public := is_public;
     req_headers := launch_headers cfg |}.

(** [response.raise_for_status()]: [httpx.HTTPStatusError] unless the
    status is 2xx. *)
Definition raise_for_status (url : string) (r : response) : result unit :=
  if ((200 <=? status_code r) && (status_code r <=? 299))%Z then Return tt
  else Raise (HTTPError (status_error_message (status_code r) url)).

(** [response.json()]. *)
Definition response_json (r : response) : result Py.value :=
  match json_loads (body r) with
  | Some v => Return v
  | None => Raise JSONDecodeError
  end.

(** [try: m except httpx.HTTPError as e: h str(e)]. *)
Definition except_http_error {A} (m : result A) (h : string -> result A)
  : result A :=
  match m with
  | Raise (HTTPError msg) => h msg
  | _ => m
  end.

(** [launch_agent]; [post] is the remote executor seen through
    [client.post]: a response, or the exception the call raises. *)
Definition launch_agent (cfg : config) (post : request -> result response)
    (t : task) (is_public : bool) : result Py.value :=
  let req := launch_request cfg t is_public in
  except_http_error
    (response <- post req ;;
     _ <- raise_for_status (req_url req) response ;;
     result <- response_json response ;;
     Return (Py.Dict [("success", Py.Bool true); ("result", result)]))%result
    (fun error =>
       Return (Py.Dict [("success", Py.Bool false);
                        ("error", Py.Str error)])).

End Activities.

(* ------------------------------------------------------------------ *)
(** ** [app/workflows.py]: class [AgentRouterWorkflow] *)
(* ------------------------------------------------------------------ *)

(** One attempt of an activity, as the orchestration engine records it. *)
Inductive activity_attempt : Type :=
| RetrieveAttempt (attempt : nat)
| LaunchAttempt (attempt : nat).

(** What the two activities find outside the process, attempt by attempt:
    the store as retrieval attempt [n] finds it, the remote executor as
    launch attempt [n] finds it. *)
Record environment : Type := {
  store_at : nat -> database;
  post_at : nat -> request -> result response
}.

(** [workflow.execute_activity] under [RetryPolicy(maximum_attempts=...)]:
    an attempt that returns ends the step with its value; an attempt that
    raises is retried while attempts are left, and the step then fails with
    [ActivityError].  Attempts are numbered from 1.  Timeouts and backoff
    intervals are not modelled. *)
Fixpoint retry_activity {A} (mk : nat -> activity_attempt)
    (retries_left attempt : nat) (activity : nat -> result A)
  : traced activity_attempt A :=
  match activity attempt with
  | Return a => ([mk attempt], Return a)
  | Raise e =>
      match retries_left with
      | O => ([mk attempt], Raise (ActivityError e))
      | S k =>
          let (tr, r) := retry_activity mk k (S attempt) activity in
          (mk attempt :: tr, r)
      end
  end.

Definition execute_activity {A} (mk : nat -> activity_attempt)
    (maximum_attempts : nat) (activity : nat -> result A)
  : traced activity_attempt A :=
  retry_activity mk (maximum_attempts - 1) 1 activity.

Module AgentRouterWorkflow.

(** [maximum_attempts] of the two retry policies. *)
Definition retrieve_maximum_attempts : nat := 3.
Definition launch_maximum_attempts : nat := 2.

Section Run.
Context {L : Library}.

Definition run (cfg : config) (env : environment) (t : task)
    (is_public : bool) (org_id : option string)
  : traced activity_attempt Py.value :=
  (enhanced_task <-
     execute_activity RetrieveAttempt retrieve_maximum_attempts
       (fun n => snd (retrieve_trajectory (store_at env n) t org_id)) ;;
   execute_activity LaunchAttempt launch_maximum_attempts
     (fun n => launch_agent cfg (post_at env n) enhanced_task is_public)
  )%traced.

End Run.

End AgentRouterWorkflow.

(** The launch attempts in a run's history. *)
Definition launch_attempts (tr : list activity_attempt) : nat :=
  length (filter (fun a => match a with LaunchAttempt _ => true
                                      | RetrieveAttempt _ => false end) tr).

(* ------------------------------------------------------------------ *)
(** ** [app/api.py] *)
(* ------------------------------------------------------------------ *)

(** What the endpoint [/run-agent] answers: the value it returns (sent
    with status 200), or an [HTTPException]. *)
Inductive api_response : Type :=
| Returned (content : Py.value)
| HTTPException (status_code : Z) (detail : Py.value).

Section Api.
Context {L : Library}.

(** [str(e)] for an exception that reaches the last handler. *)
Variable exn_text : exn -> string.

(** [run_agent]; [org_id] is [request.headers.get("X-User-Org")],
    [connect] is the outcome of reaching the orchestration engine
    ([get_temporal_client()] and [client.start_workflow]), and the
    workflow started through the client is [AgentRouterWorkflow.run]
    ([handle.result()] raises when the workflow failed).  The
    [HTTPException] raised inside the [try] passes the first handler
    unchanged; any other exception becomes a 500 carrying its text. *)
Definition run_agent (cfg : config) (connect : result unit)
    (env : environment) (t : task) (is_public : bool)
    (org_id : option string) : api_response :=
  match (_ <- connect ;;
         result <- snd (AgentRouterWorkflow.run cfg env t is_public org_id) ;;
         success <- Py.get result "success" Py.None_ ;;
         if Py.truthy success then
           content <- Py.get result "result" Py.None_ ;;
           Return (Returned content)
         else
           detail <- Py.get result "error" (Py.Str "Unknown error occurred") ;;
           Return (HTTPException 500 detail))%result with
  | Return response => response
  | Raise e => HTTPException 500 (Py.Str (exn_text e))
  end.

End Api.

(* ------------------------------------------------------------------ *)
(** ** Vocabulary of the properties *)
(* ------------------------------------------------------------------ *)

(** The tenant ids that do not pass the gate. *)
Definition gated (org_id : option string) : Prop :=
  org_id = None \/ org_id = Some "" \/ org_id = Some "your-org-id-here"
  \/ org_id = Some "test" \/ org_id = Some "example".

(** The statements sent before the gate: the best-effort creation of the
    similarity extension. *)
Definition extension_trace (db : database) : list statement :=
  match create_extension_fault (db_faults db) with
  | Some _ => [CreateExtension]
  | None => [CreateExtension; Commit]
  end.

(** A statement that reads the tables. *)
Definition is_data_query (s : statement) : Prop :=
  match s with
  | CandidateQuery _ _ _ | EventsQuery _ => True
  | CreateExtension | Commit => False
  end.

(** The failures [get_similar_trajectory] lets through: a
    [ProgrammingError] whose text lacks ["does not exist"]. *)
Definition unmasked (e : exn) : Prop :=
  exists msg, e = ProgrammingError msg
              /\ PyStr.contains "does not exist" msg = false.

(** The two tests of the gate, as one boolean. *)
Definition gate_closed (org_id : option string) : bool :=
  match org_id with
  | None => true
  | Some s => (s =? "") || org_id_placeholder s
  end.

(** The exceptions the loop over the events can raise by itself. *)
Definition local_error (e : exn) : Prop :=
  match e with
  | TypeError | AttributeError | ValueError | KeyError => True
  | _ => False
  end.

(** The two shapes of a launch result. *)
Definition launch_success (payload : Py.value) : Py.value :=
  Py.Dict [("success", Py.Bool true); ("result", payload)].

Definition launch_failure (error : string) : Py.value :=
  Py.Dict [("success", Py.Bool false); ("error", Py.Str error)].

Section Eligibility.
Context {L : Library}.

Definition ran_headless (t : trajectory) : Prop :=
  jsonb_get_text (jsonb_get (t_run_settings t) "web") "headless" = Some "true".

(** [te] records a successful validated answer of trajectory [t]. *)
Definition successful_answer (t : trajectory) (te : trajectory_event) : Prop :=
  let event := jsonb_get (te_data te) "event" in
  te_trajectory_id te = t_id t
  /\ te_type te = "AgentEvent"
  /\ jsonb_get_text event "kind" = Some "tool_result"
  /\ jsonb_get_text (jsonb_get event "tool_req") "tool_name" = Some "answer"
  /\ exists r, jsonb_get_text event "result" = Some r
               /\ PyStr.contains "success=True" r = true.

(** The eligibility conditions of a stored trajectory, for a request with
    the given objective and tenant. *)
Definition eligible (db : database) (task_objective org_id : string)
    (t : trajectory) : Prop :=
  t_org_id t = Some org_id
  /\ t_status t = "completed"
  /\ t_error t = None
  /\ ran_headless t
  /\ (1 # 10 < similarity (t_objective t) task_objective)%Q
  /\ exists te, In te (trajectory_event_table db) /\ successful_answer t te.

(** The steps the loop appends, in order: name and details of each event
    whose pass reaches [trajectory_steps.append]. *)
Fixpoint surviving (events : list event_row) : list (string * Py.dict) :=
  match events with
  | [] => []
  | ev :: rest =>
      match event_action ev with
      | Return (Step simplified_name action_details) =>
          (simplified_name, action_details) :: surviving rest
      | _ => surviving rest
      end
  end.

(** Lines numbered contiguously from [k]. *)
Fixpoint number_from (k : nat) (steps : list (string * Py.dict))
  : list string :=
  match steps with
  | [] => []
  | (simplified_name, action_details) :: rest =>
      step_line k simplified_name action_details :: number_from (S k) rest
  end.

(** The event's tool name is a string that is, or contains, ["answer"]. *)
Definition answer_named (ev : event_row) : bool :=
  let '(_, tool_req_data, _) := ev in
  match load_tool_req tool_req_data with
  | Some tool_req_data =>
      match tool_name_of tool_req_data with
      | Return (Py.Str tool_name) => PyStr.contains "answer" tool_name
      | _ => false
      end
  | None => false
  end.

(** Past the gate, the body sends the candidate query and goes on with its
    rows. *)
Definition after_gate (db : database) (obj url s : string)
  : session (option string) :=
  (result <- execute (CandidateQuery url obj s) (query_fault (db_faults db))
               (candidate_query db url obj s) ;;
   match result with
   | None => sret None
   | Some (trajectory_id, _, _, _) =>
       events <- execute (EventsQuery trajectory_id)
                   (events_fault (db_faults db))
                   (events_query db trajectory_id) ;;
       match events with
       | [] => sret None
       | _ =>
           trajectory_steps <- lift (format_events events [] 1) ;;
           sret (Some (PyStr.join PyStr.nl trajectory_steps))
       end
   end)%traced.

(** The handlers of [get_similar_trajectory] send nothing to the store. *)
Definition handled (r : result (option string)) : result (option string) :=
  match r with
  | Return a => Return a
  | Raise e => snd (get_similar_trajectory_handler e)
  end.

(** What [retrieve_trajectory] makes of the outcome of
    [get_similar_trajectory]. *)
Definition enhance (t : task) (r : result (option string)) : result task :=
  match r with
  | Return (Some trajectory) =>
      if trajectory =? "" then Return t
      else Return {| objective :=
                       (objective t
                        ++ format_trajectory_as_instructions trajectory)%string;
                     start_url := start_url t |}
  | Return None => Return t
  | Raise e => Raise e
  end.

(** A stored trajectory qualifies for a request. *)
Definition qualifies (db : database) (url obj org_id : string)
    (t : trajectory) : Prop :=
  t_start_url t = url /\ eligible db obj org_id t.

(** The pass of the loop body over [ev] reaches
    [trajectory_steps.append]. *)
Definition emits (ev : event_row) : bool :=
  match event_action ev with
  | Return (Step _ _) => true
  | _ => false
  end.

End Eligibility.

(* ------------------------------------------------------------------ *)
(** ** Sample data *)
(* ------------------------------------------------------------------ *)

(** A small instance of the library functions, to run the model on
    concrete inputs: similarity is the share of the longer string covered
    by the common prefix; the decoder knows two texts. *)
Fixpoint common_prefix (a b : string) : nat :=
  match a, b with
  | String x a', String y b' =>
      if Ascii.eqb x y then S (common_prefix a' b') else 0
  | _, _ => 0
  end.

Definition sample_library : Library := {|
  similarity := fun a b =>
    (Z.of_nat (common_prefix a b)
     # Pos.of_nat (Nat.max (String.length a) (String.length b)))%Q;
  jsonb_out := fun _ => "?";
  json_loads := fun s =>
    if s =? "{}" then Some (Py.Dict [])
    else if s =? "null" then Some Py.None_
    else None;
  json_dumps := fun v =>
    match v with
    | Py.Dict [] => "{}"
    | _ => "{...}"
    end;
  dict_of_list := fun _ => None;
  status_error_message := fun status url =>
    ("Server error for url " ++ url)%string
|}.

Definition empty_db : database :=
  {| trajectory_table := []; trajectory_event_table := [];
     db_faults := no_faults |}.

(** Scenario A's task. *)
Definition scenario_a_task : task :=
  {| objective := "find price"; start_url := "https://x" |}.

(** A store whose candidate query is refused for lack of permission. *)
Definition denied : exn :=
  ProgrammingError "permission denied for table trajectory".

Definition denied_db : database :=
  {| trajectory_table := []; trajectory_event_table := [];
     db_faults := {| create_extension_fault := None; commit_fault := None;
                     query_fault := Some denied; events_fault := None |} |}.

Definition sample_config : config :=
  {| AGENT_PLATFORM_URL := "http://localhost:8000";
     AGENT_NAME := "multi-forest";
     AGENT_API_TOKEN := ""; AGENT_USER_SUB := ""; AGENT_USER_ORG := "" |}.

(** The remote executor answering with the given status on every call. *)
Definition always_status (status : Z) (_ : nat) (_ : request)
  : result response :=
  Return {| status_code := status; body := "" |}.

(** The remote executor answering 204 with an empty body. *)
Definition no_content_post (_ : request) : result response :=
  Return {| status_code := 204; body := "" |}.

Definition denied_env : environment :=
  {| store_at := fun _ => denied_db; post_at := always_status 200 |}.

Definition failing_env : environment :=
  {| store_at := fun _ => empty_db; post_at := always_status 500 |}.

Definition headless_settings : Py.value :=
  Py.Dict [("web", Py.Dict [("headless", Py.Bool true)])].

Definition tool_event (trajectory_id : string) (index : Z)
    (tool_name : string) (args tool_result : Py.value) : trajectory_event :=
  {| te_trajectory_id := trajectory_id;
     te_index := index;
     te_type := "AgentEvent";
     te_data :=
       Some (Py.Dict
         [("event",
           Py.Dict [("kind", Py.Str "tool_result");
                    ("tool_req", Py.Dict [("tool_name", Py.Str tool_name);
                                          ("args", args)]);
                    ("result", tool_result)])]) |}.

Definition answer_event (trajectory_id : string) (index : Z)
  : trajectory_event :=
  tool_event trajectory_id index "answer" (Py.Dict [])
    (Py.Str "AnswerResult(success=True)").

Definition completed_trajectory (id obj : string) (org_id : option string)
    (created_at : Z) : trajectory :=
  {| t_id := id; t_start_url := "https://x"; t_objective := obj;
     t_status := "completed"; t_error := None;
     t_run_settings := Some headless_settings;
     t_org_id := org_id; t_created_at := created_at |}.

(** Four completed runs of two tenants; [t4] carries three tool-result
    events, one of them the answer (Scenario B), stored out of order. *)
Definition sample_db : database :=
  {| trajectory_table :=
       [ completed_trajectory "t1" "find price" (Some "org-1") 100;
         completed_trajectory "t2" "find price" (Some "org-2") 300;
         completed_trajectory "t3" "find prices" (Some "org-1") 200;
         completed_trajectory "t4" "find price" (Some "org-1") 150 ];
     trajectory_event_table :=
       [ answer_event "t1" 0;
         answer_event "t2" 0;
         answer_event "t3" 0;
         answer_event "t4" 2;
         tool_event "t4" 1 "type_web" (Py.Dict [("text", Py.Str "price")])
           Py.None_;
         tool_event "t4" 0 "click_localizer_web" (Py.Dict [])
           (Py.Dict [("localizer_output",
                      Py.Dict [("x", Py.Int 10); ("y", Py.Int 20)])]) ];
     db_faults := no_faults |}.

(** The enhanced task of the sample request of tenant [org-1]. *)
Definition sample_enhanced_task : task :=
  {| objective :=
       ("find price" ++ header ++ "1. click({...})" ++ PyStr.nl
        ++ "2. type({...})")%string;
     start_url := "https://x" |}.

(** A store whose selected trajectory carries the marker of the
    instruction wrapper in a tool name. *)
Definition marked_db : database :=
  {| trajectory_table :=
       [ completed_trajectory "t1" "find price" (Some "org-1") 100 ];
     trajectory_event_table :=
       [ answer_event "t1" 1;
         tool_event "t1" 0 "## Similar Trajectory" (Py.Dict []) Py.None_ ];
     db_faults := no_faults |}.

(** The index column of a row of the events query. *)
Definition event_index (ev : event_row) : Z := fst (fst ev).

(** The store with only the trajectories of tenant [org_id]. *)
Definition restrict_to_tenant (org_id : string) (db : database) : database :=
  {| trajectory_table :=
       filter (fun t => text_is (t_org_id t) org_id) (trajectory_table db);
     trajectory_event_table := trajectory_event_table db;
     db_faults := db_faults db |}.

(** What follows the candidate query in the trace. *)
Definition events_statement {L : Library} (db : database)
    (url obj org_id : string) : list statement :=
  match query_fault (db_faults db) with
  | Some _ => []
  | None =>
      match candidate_query db url obj org_id with
      | Some (trajectory_id, _, _, _) => [EventsQuery trajectory_id]
      | None => []
      end
  end.

(** A store whose selected trajectory has a tool-result event with a
    number in place of the tool request. *)
Definition malformed_event : trajectory_event :=
  {| te_trajectory_id := "t1"; te_index := 1; te_type := "AgentEvent";
     te_data :=
       Some (Py.Dict
         [("event", Py.Dict [("kind", Py.Str "tool_result");
                             ("tool_req", Py.Int 5)])]) |}.

Definition malformed_db : database :=
  {| trajectory_table :=
       [ completed_trajectory "t1" "find price" (Some "org-1") 100 ];
     trajectory_event_table :=
       [ tool_event "t1" 0 "click_web" (Py.Dict []) Py.None_;
         malformed_event;
         answer_event "t1" 2 ];
     db_faults := no_faults |}.

(** The remote executor answering 200 with an undecodable body on the
    first call and with [{}] afterwards. *)
Definition recovering_env : environment :=
  {| store_at := fun _ => empty_db;
     post_at := fun n _ =>
       Return {| status_code := 200;
                 body := if Nat.eqb n 1 then "<html>" else "{}" |} |}.

(** A configuration with every optional credential set. *)
Definition full_config : config :=
  {| AGENT_PLATFORM_URL := "http://localhost:8000";
     AGENT_NAME := "multi-forest";
     AGENT_API_TOKEN := "secret"; AGENT_USER_SUB := "user-1";
     AGENT_USER_ORG := "org-1" |}.

(** The text of an exception, for the sample runs of the endpoint. *)
Definition sample_exn_text (e : exn) : string :=
  match e with
  | ActivityError _ => "Workflow execution failed"
  | ProgrammingError msg | HTTPError msg | OtherException msg => msg
  | _ => "error"
  end.

(** A click whose arguments already name an element, with a result that
    carries coordinates and another element. *)
Definition click_row : event_row :=
  (0%Z,
   Py.Dict [("tool_name", Py.Str "click_localizer_web");
            ("args", Py.Dict [("element", Py.Str "button")])],
   Py.Dict [("element", Py.Str "other");
            ("localizer_output",
             Py.Dict [("x", Py.Int 10); ("y", Py.Int 20)])]).

Definition click_details : Py.dict :=
  [("element", Py.Str "button");
   ("coordinates", Py.Dict [("x", Py.Int 10); ("y", Py.Int 20)])].

(* ------------------------------------------------------------------ *)
(** ** The tenant gate *)
(* ------------------------------------------------------------------ *)

Section Gate.
Context {L : Library}.

Lemma gated_closed (org_id : option string) :
  gated org_id <-> gate_closed org_id = true.
Proof.
  unfold gated, gate_closed, org_id_placeholder, placeholders.
  destruct org_id as [s|]; cbn [existsb].
  - rewrite !orb_true_iff, !String.eqb_eq.
    split.
    + intros [H|[H|[H|[H|H]]]]; try discriminate;
        injection H as ->; auto.
    + intros [->|[->|[->|[->|H]]]]; auto; discriminate.
  - split; auto.
Qed.

Lemma extension_step (db : database) :
  try_except
    (_ <- execute CreateExtension (create_extension_fault (db_faults db)) tt ;;
     execute Commit (commit_fault (db_faults db)) tt)%traced
    (fun _ => sret tt)
  = (extension_trace db, Return tt).
Proof.
  unfold extension_trace.
  destruct (create_extension_fault (db_faults db)); cbn; [reflexivity|].
  destruct (commit_fault (db_faults db)); reflexivity.
Qed.

Lemma body_closed (db : database) (obj url : string) (org_id : option string) :
  gate_closed org_id = true ->
  get_similar_trajectory_body db obj url org_id
  = (extension_trace db, Return None).
Proof.
  intros Hc. unfold get_similar_trajectory_body.
  rewrite extension_step.
  destruct org_id as [s|]; cbn in *.
  - destruct (s =? ""); cbn in *; [now rewrite app_nil_r|].
    rewrite Hc. cbn. now rewrite app_nil_r.
  - now rewrite app_nil_r.
Qed.

Lemma body_open (db : database) (obj url s : string) :
  gate_closed (Some s) = false ->
  get_similar_trajectory_body db obj url (Some s)
  = (extension_trace db ++ fst (after_gate db obj url s),
     snd (after_gate db obj url s)).
Proof.
  intros Hc. unfold get_similar_trajectory_body.
  rewrite extension_step. unfold gate_closed in Hc.
  apply orb_false_iff in Hc as [H1 H2].
  cbn [org_id_missing]. rewrite H1, H2.
  fold (after_gate db obj url s).
  unfold sbind. destruct (after_gate db obj url s); reflexivity.
Qed.

Lemma after_gate_head (db : database) (obj url s : string) :
  exists tr, fst (after_gate db obj url s) = CandidateQuery url obj s :: tr.
Proof.
  unfold after_gate, execute.
  destruct (query_fault (db_faults db)); cbn; [eauto|].
  destruct (candidate_query db url obj s) as [[[[i ?] ?] ?]|]; cbn; [|eauto].
  match goal with
  | |- context [let (_, _) := ?m in _] => destruct m
  end; cbn; eauto.
Qed.

Lemma handler_silent (e : exn) : fst (get_similar_trajectory_handler e) = [].
Proof.
  destruct e; cbn; try reflexivity.
  destruct (PyStr.contains _ msg); reflexivity.
Qed.

Lemma get_similar_trajectory_split (db : database) (obj url : string)
    (org_id : option string) :
  get_similar_trajectory db obj url org_id
  = (fst (get_similar_trajectory_body db obj url org_id),
     handled (snd (get_similar_trajectory_body db obj url org_id))).
Proof.
  unfold get_similar_trajectory, try_except.
  destruct (get_similar_trajectory_body db obj url org_id) as [tr [a|e]];
    cbn; [reflexivity|].
  pose proof (handler_silent e) as Hs.
  destruct (get_similar_trajectory_handler e) as [tr' r]; cbn in *.
  subst tr'. now rewrite app_nil_r.
Qed.

Lemma retrieve_trajectory_split (db : database) (t : task)
    (org_id : option string) :
  retrieve_trajectory db t org_id
  = (fst (get_similar_trajectory db (objective t) (start_url t) org_id),
     enhance t
       (snd (get_similar_trajectory db (objective t) (start_url t) org_id))).
Proof.
  unfold retrieve_trajectory, sbind.
  destruct (get_similar_trajectory _ _ _ _) as [tr [[tj|]|e]]; cbn;
    try (now rewrite ?app_nil_r).
  destruct (tj =? ""); cbn; now rewrite app_nil_r.
Qed.

Lemma get_similar_trajectory_closed (db : database) (obj url : string)
    (org_id : option string) :
  gated org_id ->
  get_similar_trajectory db obj url org_id = (extension_trace db, Return None).
Proof.
  intros Hg. apply gated_closed in Hg.
  rewrite get_similar_trajectory_split, body_closed by assumption.
  reflexivity.
Qed.

Lemma get_similar_trajectory_open (db : database) (obj url : string)
    (org_id : option string) :
  ~ gated org_id ->
  exists s, org_id = Some s
    /\ get_similar_trajectory db obj url org_id
       = (extension_trace db ++ fst (after_gate db obj url s),
          handled (snd (after_gate db obj url s))).
Proof.
  intros Hg. rewrite gated_closed in Hg.
  apply not_true_is_false in Hg.
  destruct org_id as [s|]; [|discriminate].
  exists s. split; [reflexivity|].
  now rewrite get_similar_trajectory_split, body_open.
Qed.

Lemma retrieve_trajectory_closed (db : database) (t : task)
    (org_id : option string) :
  gated org_id ->
  retrieve_trajectory db t org_id = (extension_trace db, Return t).
Proof.
  intros Hg. rewrite retrieve_trajectory_split.
  now rewrite (get_similar_trajectory_closed db _ _ org_id Hg).
Qed.

Lemma extension_trace_no_query (db : database) :
  Forall (fun s => ~ is_data_query s) (extension_trace db).
Proof.
  unfold extension_trace.
  destruct (create_extension_fault (db_faults db)); repeat constructor; auto.
Qed.

(** C10.  Retrieval is skipped exactly for a tenant id that is [None], the
    empty string or one of the three placeholder strings: for these
    [get_similar_trajectory] returns [None] having sent only the extension
    statements; for every other tenant id the candidate query is sent,
    right after the extension statements; so the candidate query is in the
    trace if and only if the tenant id is not one of the five. *)
Theorem tenant_gate_extent (db : database) (obj url : string)
    (org_id : option string) :
  (gated org_id ->
   get_similar_trajectory db obj url org_id
   = (extension_trace db, Return None))
  /\ (~ gated org_id ->
      exists s tr, org_id = Some s
        /\ fst (get_similar_trajectory db obj url org_id)
           = extension_trace db ++ CandidateQuery url obj s :: tr)
  /\ ((exists s, In (CandidateQuery url obj s)
                   (fst (get_similar_trajectory db obj url org_id)))
      <-> ~ gated org_id).
Proof.
  assert (Hopen : ~ gated org_id ->
      exists s tr, org_id = Some s
        /\ fst (get_similar_trajectory db obj url org_id)
           = extension_trace db ++ CandidateQuery url obj s :: tr).
  { intros Hg.
    destruct (get_similar_trajectory_open db obj url org_id Hg)
      as (s & -> & Heq).
    destruct (after_gate_head db obj url s) as [tr Htr].
    exists s, tr. split; [reflexivity|].
    rewrite Heq. cbn. now rewrite Htr. }
  split; [apply get_similar_trajectory_closed|].
  split; [exact Hopen|].
  split.
  - intros [s Hin] Hg.
    rewrite (get_similar_trajectory_closed db obj url org_id Hg) in Hin.
    cbn in Hin.
    pose proof (extension_trace_no_query db) as Hf.
    rewrite Forall_forall in Hf. apply (Hf _ Hin). exact I.
  - intros Hg. destruct (Hopen Hg) as (s & tr & _ & Heq).
    exists s. rewrite Heq. apply in_or_app. right. now left.
Qed.

(** C2, as the code has it.  For a tenant id that is absent or a
    placeholder, [retrieve_trajectory] returns the task unchanged, and the
    only statements sent to the store are those of the best-effort
    creation of the similarity extension, which precedes the gate: neither
    the candidate query nor the events query is sent. *)
Theorem gate_short_circuit (db : database) (t : task)
    (org_id : option string) :
  gated org_id ->
  retrieve_trajectory db t org_id = (extension_trace db, Return t)
  /\ Forall (fun s => ~ is_data_query s)
            (fst (retrieve_trajectory db t org_id)).
Proof.
  intros Hg.
  rewrite (retrieve_trajectory_closed db t org_id Hg).
  split; [reflexivity|]. apply extension_trace_no_query.
Qed.

End Gate.

Lemma gate_short_circuit_witness :
  gated None
  /\ retrieve_trajectory (L := sample_library) empty_db scenario_a_task None
     = ([CreateExtension; Commit], Return scenario_a_task)
  /\ Forall (fun s => ~ is_data_query s)
        (fst (retrieve_trajectory (L := sample_library) empty_db
                scenario_a_task None)).
Proof.
  split; [left; reflexivity|].
  apply (gate_short_circuit (L := sample_library) empty_db scenario_a_task
           None).
  left; reflexivity.
Defined.

(** C2 as stated fails in Scenario A: with no tenant id the store is
    reached before the gate, by the statement that creates the
    extension. *)
Lemma gate_store_access_counterexample :
  fst (retrieve_trajectory (L := sample_library) empty_db scenario_a_task None)
  = [CreateExtension; Commit]
  /\ ~ (retrieve_trajectory (L := sample_library) empty_db scenario_a_task None
        = ([], Return scenario_a_task)).
Proof.
  split; [reflexivity|]. intros H. discriminate H.
Qed.

(* ------------------------------------------------------------------ *)
(** ** Failures during retrieval *)
(* ------------------------------------------------------------------ *)

Lemma rbind_raise {A B} (m : result A) (k : A -> result B) (e : exn) :
  rbind m k = Raise e ->
  m = Raise e \/ exists a, m = Return a /\ k a = Raise e.
Proof.
  destruct m as [a|e']; cbn; intros H; [right; eauto | left].
  now injection H as ->.
Qed.

Lemma get_local v key d e : Py.get v key d = Raise e -> local_error e.
Proof.
  destruct v; cbn; try (intros [= <-]; exact I).
  destruct (Py.lookup key entries); discriminate.
Qed.

Lemma contains_local key v e : Py.contains key v = Raise e -> local_error e.
Proof. destruct v; cbn; intros [= <-] || discriminate; exact I. Qed.

Lemma getitem_local v key e : Py.getitem v key = Raise e -> local_error e.
Proof.
  destruct v; cbn; try (intros [= <-]; exact I).
  destruct (Py.lookup key entries); [discriminate|intros [= <-]; exact I].
Qed.

Lemma replace_local v old new e :
  Py.replace v old new = Raise e -> local_error e.
Proof. destruct v; cbn; intros [= <-] || discriminate; exact I. Qed.

Section Containment.
Context {L : Library}.

Lemma result_has_local v key e : result_has v key = Raise e -> local_error e.
Proof.
  unfold result_has. destruct (Py.truthy v); [apply contains_local|discriminate].
Qed.

Lemma dict_of_local v e : dict_of v = Raise e -> local_error e.
Proof.
  destruct v; cbn; try (intros [= <-]; exact I); try discriminate.
  - destruct (s =? ""); [discriminate|intros [= <-]; exact I].
  - destruct items; [discriminate|].
    destruct (dict_of_list _); [discriminate|intros [= <-]; exact I].
Qed.

(** Splits a failing chain of binds into the call that failed. *)
Ltac failing_call H :=
  repeat match type of H with
    | rbind _ _ = Raise _ =>
        apply rbind_raise in H as [H | (? & _ & H)]
    | (if ?b then _ else _) = Raise _ => destruct b
    | Return _ = Raise _ => discriminate H
    end.

Lemma event_action_local ev e : event_action ev = Raise e -> local_error e.
Proof.
  destruct ev as [[i req] res]. unfold event_action.
  destruct (load_tool_req req) as [req'|]; [|discriminate].
  unfold tool_name_of, tool_args_of, is_answer, simplify_name,
    add_coordinates, add_viewport_size, add_element.
  intros H. failing_call H;
    eauto using get_local, contains_local, getitem_local, replace_local,
      result_has_local, dict_of_local.
Qed.

Lemma format_events_local events acc n e :
  format_events events acc n = Raise e -> local_error e.
Proof.
  revert acc n. induction events as [|ev rest IH]; intros acc n; cbn.
  - discriminate.
  - destruct (event_action ev) as [[|name details]|e'] eqn:Hev.
    + apply IH.
    + apply IH.
    + intros [= <-]. eapply event_action_local; eauto.
Qed.

Lemma local_error_masked e : local_error e -> ~ unmasked e.
Proof. intros Hl (msg & -> & _). exact Hl. Qed.

(** The outcome of the part past the gate, case by case. *)
Lemma after_gate_result (db : database) (obj url s : string) :
  snd (after_gate db obj url s)
  = match query_fault (db_faults db) with
    | Some e => Raise e
    | None =>
        match candidate_query db url obj s with
        | None => Return None
        | Some (trajectory_id, _, _, _) =>
            match events_fault (db_faults db) with
            | Some e => Raise e
            | None =>
                match events_query db trajectory_id with
                | [] => Return None
                | events =>
                    match format_events events [] 1 with
                    | Return trajectory_steps =>
                        Return (Some (PyStr.join PyStr.nl trajectory_steps))
                    | Raise e => Raise e
                    end
                end
            end
        end
    end.
Proof.
  unfold after_gate, execute.
  destruct (query_fault (db_faults db)); cbn; [reflexivity|].
  destruct (candidate_query db url obj s) as [[[[i ?] ?] ?]|]; cbn;
    [|reflexivity].
  destruct (events_fault (db_faults db)); cbn; [reflexivity|].
  destruct (events_query db i) as [|ev evs]; cbn; [reflexivity|].
  destruct (event_action ev) as [[|? ?]|?]; cbn;
    try destruct (format_events evs _ _); reflexivity.
Qed.

Lemma after_gate_trace (db : database) (obj url s : string) :
  fst (after_gate db obj url s)
  = CandidateQuery url obj s :: events_statement db url obj s.
Proof.
  unfold after_gate, events_statement, execute.
  destruct (query_fault (db_faults db)); cbn; [reflexivity|].
  destruct (candidate_query db url obj s) as [[[[i ?] ?] ?]|]; cbn;
    [|reflexivity].
  destruct (events_fault (db_faults db)); cbn; [reflexivity|].
  destruct (events_query db i) as [|ev evs]; cbn; [reflexivity|].
  destruct (event_action ev) as [[|? ?]|?]; cbn;
    try destruct (format_events evs _ _); reflexivity.
Qed.

Lemma handled_raise r e : handled r = Raise e -> r = Raise e /\ unmasked e.
Proof.
  destruct r as [a|e']; cbn; [discriminate|].
  destruct e'; cbn; try discriminate.
  destruct (PyStr.contains "does not exist" msg) eqn:Hc; cbn;
    [discriminate|].
  intros [= <-]. split; [reflexivity|]. exists msg. auto.
Qed.

Lemma handled_masked (e : exn) : ~ unmasked e -> handled (Raise e) = Return None.
Proof.
  intros Hm. destruct e; cbn; try reflexivity.
  destruct (PyStr.contains "does not exist" msg) eqn:Hc; [reflexivity|].
  exfalso. apply Hm. exists msg. auto.
Qed.

Lemma handled_unmasked (e : exn) : unmasked e -> handled (Raise e) = Raise e.
Proof. intros (msg & -> & Hc). cbn. now rewrite Hc. Qed.

End Containment.

Section ContainmentTheorems.
Context {L : Library}.

Lemma enhance_raise t r e : enhance t r = Raise e -> r = Raise e.
Proof.
  destruct r as [[tj|]|e']; cbn; try discriminate.
  - destruct (tj =? ""); discriminate.
  - now intros [= <-].
Qed.

Lemma retrieve_open (db : database) (t : task) (s : string) :
  ~ gated (Some s) ->
  snd (retrieve_trajectory db t (Some s))
  = enhance t (handled (snd (after_gate db (objective t) (start_url t) s))).
Proof.
  intros Hg. rewrite retrieve_trajectory_split. cbn [snd].
  destruct (get_similar_trajectory_open db (objective t) (start_url t)
              (Some s) Hg) as (s' & [= <-] & ->).
  reflexivity.
Qed.

Lemma retry_all_raise {A} mk (activity : nat -> result A) k n :
  (forall i, n <= i <= n + k -> exists e, activity i = Raise e) ->
  exists e, activity (n + k) = Raise e
    /\ retry_activity mk k n activity
       = (map mk (seq n (S k)), Raise (ActivityError e)).
Proof.
  revert n. induction k as [|k IH]; intros n Hall.
  - destruct (Hall n ltac:(lia)) as [e He].
    exists e. rewrite Nat.add_0_r. split; [exact He|].
    cbn. now rewrite He.
  - destruct (Hall n ltac:(lia)) as [e0 He0].
    destruct (IH (S n)) as (e & He & Hr).
    { intros i Hi. apply Hall. lia. }
    exists e. replace (n + S k) with (S n + k) by lia.
    split; [exact He|].
    cbn [retry_activity]. rewrite He0, Hr. reflexivity.
Qed.

(** C3, as the code has it.  A failure of the candidate query, of the
    events query, or of the parsing and formatting of the events is caught
    and treated as "no trajectory": [retrieve_trajectory] returns the task
    unchanged -- except for a [ProgrammingError] whose text lacks
    ["does not exist"], which is raised again.  Nothing else escapes.  The
    workflow has no handler around the retrieval step: when retrieval
    raises on each of its 3 attempts, the run fails with [ActivityError]
    after exactly these attempts, and no launch is attempted. *)
Theorem retrieval_failure_containment :
  (forall db t org_id e,
     snd (retrieve_trajectory db t org_id) = Raise e ->
     unmasked e
     /\ (query_fault (db_faults db) = Some e
         \/ events_fault (db_faults db) = Some e))
  /\ (forall db t s e,
        ~ gated (Some s) ->
        query_fault (db_faults db) = Some e ->
        (~ unmasked e -> snd (retrieve_trajectory db t (Some s)) = Return t)
        /\ (unmasked e -> snd (retrieve_trajectory db t (Some s)) = Raise e))
  /\ (forall db t s row e,
        ~ gated (Some s) ->
        query_fault (db_faults db) = None ->
        candidate_query db (start_url t) (objective t) s = Some row ->
        events_fault (db_faults db) = Some e ->
        (~ unmasked e -> snd (retrieve_trajectory db t (Some s)) = Return t)
        /\ (unmasked e -> snd (retrieve_trajectory db t (Some s)) = Raise e))
  /\ (forall db t s trajectory_id u o q e,
        ~ gated (Some s) ->
        query_fault (db_faults db) = None ->
        candidate_query db (start_url t) (objective t) s
        = Some (trajectory_id, u, o, q) ->
        events_fault (db_faults db) = None ->
        format_events (events_query db trajectory_id) [] 1 = Raise e ->
        snd (retrieve_trajectory db t (Some s)) = Return t)
  /\ (forall cfg env t is_public org_id,
        (forall n, 1 <= n <= 3 ->
           exists e,
             snd (retrieve_trajectory (store_at env n) t org_id) = Raise e) ->
        exists e,
          snd (retrieve_trajectory (store_at env 3) t org_id) = Raise e
          /\ AgentRouterWorkflow.run cfg env t is_public org_id
             = ([RetrieveAttempt 1; RetrieveAttempt 2; RetrieveAttempt 3],
                Raise (ActivityError e))).
Proof.
  repeat apply conj.
  - intros db t org_id e H.
    rewrite retrieve_trajectory_split in H. cbn [snd] in H.
    apply enhance_raise in H.
    destruct org_id as [s|].
    2:{ rewrite get_similar_trajectory_closed in H by (left; reflexivity).
        discriminate. }
    destruct (gate_closed (Some s)) eqn:Hc.
    { rewrite get_similar_trajectory_closed in H by now apply gated_closed.
      discriminate. }
    assert (Hg : ~ gated (Some s)).
    { rewrite gated_closed, Hc. discriminate. }
    destruct (get_similar_trajectory_open db (objective t) (start_url t)
                (Some s) Hg) as (s' & [= <-] & Heq).
    rewrite Heq in H. cbn [snd] in H.
    apply handled_raise in H as [H Hu]. split; [exact Hu|].
    rewrite after_gate_result in H.
    destruct (query_fault (db_faults db)) as [e1|]; [left; congruence|].
    destruct (candidate_query _ _ _ _) as [[[[i ?] ?] ?]|]; [|discriminate].
    destruct (events_fault (db_faults db)) as [e2|]; [right; congruence|].
    destruct (events_query db i) as [|ev evs]; [discriminate|].
    destruct (format_events (ev :: evs) [] 1) eqn:Hf; [discriminate|].
    injection H as ->. apply format_events_local in Hf.
    now apply local_error_masked in Hf.
  - intros db t s e Hg Hq.
    rewrite (retrieve_open db t s Hg), after_gate_result, Hq.
    split; intros Hu.
    + now rewrite handled_masked.
    + now rewrite handled_unmasked.
  - intros db t s [[[i u] o] q] e Hg Hq Hc He.
    rewrite (retrieve_open db t s Hg), after_gate_result, Hq, Hc, He.
    split; intros Hu.
    + now rewrite handled_masked.
    + now rewrite handled_unmasked.
  - intros db t s i u o q e Hg Hq Hc He Hf.
    rewrite (retrieve_open db t s Hg), after_gate_result, Hq, Hc, He.
    destruct (events_query db i) as [|ev evs]; [discriminate|].
    rewrite Hf, handled_masked; [reflexivity|].
    apply local_error_masked. eapply format_events_local; eauto.
  - intros cfg env t is_public org_id Hall.
    destruct (retry_all_raise RetrieveAttempt
                (fun n => snd (retrieve_trajectory (store_at env n) t org_id))
                2 1) as (e & He & Hr).
    { intros i Hi. apply Hall. lia. }
    exists e. split; [exact He|].
    unfold AgentRouterWorkflow.run, execute_activity,
      AgentRouterWorkflow.retrieve_maximum_attempts.
    cbn [Nat.sub]. rewrite Hr. reflexivity.
Qed.

End ContainmentTheorems.

(** C3 as stated fails: a candidate query refused for lack of permission
    is a [ProgrammingError] without ["does not exist"]; it is raised again
    by [get_similar_trajectory], fails the retrieval step on its three
    attempts, and the run fails without a launch. *)
Lemma retrieval_failure_counterexample :
  snd (retrieve_trajectory (L := sample_library) denied_db scenario_a_task
         (Some "org-1"))
  = Raise denied
  /\ AgentRouterWorkflow.run (L := sample_library) sample_config denied_env
       scenario_a_task true (Some "org-1")
     = ([RetrieveAttempt 1; RetrieveAttempt 2; RetrieveAttempt 3],
        Raise (ActivityError denied)).
Proof. split; reflexivity. Qed.

(* ------------------------------------------------------------------ *)
(** ** The launch step *)
(* ------------------------------------------------------------------ *)

Section Launch.
Context {L : Library}.

Lemma launch_transport_error cfg post t is_public msg :
  post (launch_request cfg t is_public) = Raise (HTTPError msg) ->
  launch_agent cfg post t is_public = Return (launch_failure msg).
Proof. intros H. unfold launch_agent. rewrite H. reflexivity. Qed.

Lemma launch_bad_status cfg post t is_public r :
  post (launch_request cfg t is_public) = Return r ->
  ~ (200 <= status_code r <= 299)%Z ->
  launch_agent cfg post t is_public
  = Return (launch_failure
              (status_error_message (status_code r)
                 (req_url (launch_request cfg t is_public)))).
Proof.
  intros H Hs. unfold launch_agent. rewrite H. cbn [rbind].
  unfold raise_for_status.
  destruct ((200 <=? status_code r)%Z && (status_code r <=? 299)%Z) eqn:Hb.
  - apply andb_true_iff in Hb as [H1 H2]. exfalso. apply Hs. lia.
  - reflexivity.
Qed.

Lemma launch_good_status cfg post t is_public r v :
  post (launch_request cfg t is_public) = Return r ->
  (200 <= status_code r <= 299)%Z ->
  json_loads (body r) = Some v ->
  launch_agent cfg post t is_public = Return (launch_success v).
Proof.
  intros H Hs Hv. unfold launch_agent. rewrite H. cbn [rbind].
  unfold raise_for_status, response_json.
  replace ((200 <=? status_code r)%Z && (status_code r <=? 299)%Z)
    with true by (symmetry; apply andb_true_iff; lia).
  cbn [rbind]. rewrite Hv. reflexivity.
Qed.

(** A 2xx response whose body does not decode: the decoding error is not
    an [httpx.HTTPError] and propagates. *)
Lemma launch_undecodable_body cfg post t is_public r :
  post (launch_request cfg t is_public) = Return r ->
  (200 <= status_code r <= 299)%Z ->
  json_loads (body r) = None ->
  launch_agent cfg post t is_public = Raise JSONDecodeError.
Proof.
  intros H Hs Hv. unfold launch_agent. rewrite H. cbn [rbind].
  unfold raise_for_status, response_json.
  replace ((200 <=? status_code r)%Z && (status_code r <=? 299)%Z)
    with true by (symmetry; apply andb_true_iff; lia).
  cbn [rbind]. rewrite Hv. reflexivity.
Qed.

(** C5, as the code has it.  [launch_agent] does not propagate a transport
    error or a non-2xx response: it returns
    [{success: False, error: str(e)}]; on a 2xx response whose body
    decodes it returns [{success: True, result: v}] where [v] is the
    decoded body, unchanged; on a 2xx response whose body does not decode,
    [response.json()] raises inside the [try], no handler catches it, and
    [launch_agent] raises [JSONDecodeError]. *)
Theorem launch_outcome_classification (cfg : config)
    (post : request -> result response) (t : task) (is_public : bool) :
  (forall msg,
     post (launch_request cfg t is_public) = Raise (HTTPError msg) ->
     launch_agent cfg post t is_public
     = Return (Py.Dict [("success", Py.Bool false); ("error", Py.Str msg)]))
  /\ (forall r,
        post (launch_request cfg t is_public) = Return r ->
        ~ (200 <= status_code r <= 299)%Z ->
        exists error,
          launch_agent cfg post t is_public
          = Return (Py.Dict [("success", Py.Bool false);
                             ("error", Py.Str error)]))
  /\ (forall r v,
        post (launch_request cfg t is_public) = Return r ->
        (200 <= status_code r <= 299)%Z ->
        json_loads (body r) = Some v ->
        launch_agent cfg post t is_public
        = Return (Py.Dict [("success", Py.Bool true); ("result", v)]))
  /\ (forall r,
        post (launch_request cfg t is_public) = Return r ->
        (200 <= status_code r <= 299)%Z ->
        json_loads (body r) = None ->
        launch_agent cfg post t is_public = Raise JSONDecodeError).
Proof.
  repeat apply conj.
  - apply launch_transport_error.
  - intros r H Hs. eexists. apply (launch_bad_status _ _ _ _ _ H Hs).
  - apply launch_good_status.
  - apply launch_undecodable_body.
Qed.

Lemma retry_trace {A} mk (activity : nat -> result A) k n tr r :
  retry_activity mk k n activity = (tr, r) ->
  exists m, tr = map mk (seq n (S m)).
Proof.
  revert n tr r. induction k as [|k IH]; intros n tr r; cbn.
  - destruct (activity n); intros [= <- <-]; exists 0; reflexivity.
  - destruct (activity n); [intros [= <- <-]; exists 0; reflexivity|].
    destruct (retry_activity mk k (S n) activity) as [tr' r'] eqn:Hr.
    intros [= <- <-]. destruct (IH _ _ _ Hr) as [m ->].
    exists (S m). reflexivity.
Qed.

Lemma launch_attempts_retrieve (l : list nat) :
  launch_attempts (map RetrieveAttempt l) = 0.
Proof. induction l; [reflexivity | exact IHl]. Qed.

Lemma launch_attempts_app (a b : list activity_attempt) :
  launch_attempts (a ++ b) = launch_attempts a + launch_attempts b.
Proof. unfold launch_attempts. now rewrite filter_app, length_app. Qed.

(** C4, as the code has it.  When the retrieval step hands over a task and
    the remote executor answers HTTP 500 on every attempt, [launch_agent]
    returns [{success: False, error: ...}] as an ordinary value, so the
    launch step completes on its first attempt: the run returns that
    value, with a non-empty error, and the launch step is attempted exactly
    once, not the 2 times of its retry policy. *)
Theorem launch_failure_not_retried (cfg : config) (env : environment)
    (t enhanced : task) (is_public : bool) (org_id : option string)
    (tr : list activity_attempt) :
  (forall status url, status_error_message status url <> "") ->
  execute_activity RetrieveAttempt
    AgentRouterWorkflow.retrieve_maximum_attempts
    (fun n => snd (retrieve_trajectory (store_at env n) t org_id))
  = (tr, Return enhanced) ->
  (forall n req, exists r, post_at env n req = Return r
                           /\ status_code r = 500%Z) ->
  exists error,
    error <> ""
    /\ AgentRouterWorkflow.run cfg env t is_public org_id
       = (tr ++ [LaunchAttempt 1],
          Return (Py.Dict [("success", Py.Bool false);
                           ("error", Py.Str error)]))
    /\ launch_attempts
         (fst (AgentRouterWorkflow.run cfg env t is_public org_id)) = 1.
Proof.
  intros Hmsg Hret Hpost.
  destruct (Hpost 1 (launch_request cfg enhanced is_public))
    as (r & Hr & Hs).
  exists (status_error_message (status_code r)
            (req_url (launch_request cfg enhanced is_public))).
  split; [apply Hmsg|].
  assert (Hrun : AgentRouterWorkflow.run cfg env t is_public org_id
                 = (tr ++ [LaunchAttempt 1],
                    Return (launch_failure
                      (status_error_message (status_code r)
                         (req_url (launch_request cfg enhanced is_public)))))).
  { unfold AgentRouterWorkflow.run. rewrite Hret. unfold sbind.
    unfold execute_activity, AgentRouterWorkflow.launch_maximum_attempts.
    cbn [Nat.sub retry_activity].
    rewrite (launch_bad_status cfg (post_at env 1) enhanced is_public r Hr)
      by (rewrite Hs; lia).
    reflexivity. }
  split; [exact Hrun|].
  rewrite Hrun. cbn [fst].
  unfold execute_activity in Hret.
  destruct (retry_trace _ _ _ _ _ _ Hret) as [m ->].
  rewrite launch_attempts_app, launch_attempts_retrieve. reflexivity.
Qed.

End Launch.

Lemma launch_outcome_classification_witness :
  launch_agent (L := sample_library) sample_config
    (fun _ => Return {| status_code := 200; body := "{}" |})
    scenario_a_task true
  = Return (Py.Dict [("success", Py.Bool true); ("result", Py.Dict [])])
  /\ launch_agent (L := sample_library) sample_config no_content_post
       scenario_a_task true
     = Raise JSONDecodeError.
Proof.
  split.
  - apply (launch_outcome_classification (L := sample_library) sample_config
             (fun _ => Return {| status_code := 200; body := "{}" |})
             scenario_a_task true)
      with (r := {| status_code := 200; body := "{}" |}).
    + reflexivity.
    + cbn. lia.
    + reflexivity.
  - apply (launch_outcome_classification (L := sample_library) sample_config
             no_content_post scenario_a_task true)
      with (r := {| status_code := 204; body := "" |}).
    + reflexivity.
    + cbn. lia.
    + reflexivity.
Defined.

(** C5 as stated fails: a successful response without a JSON body (204,
    empty) does not give [{success: True, result: ...}]; the launch step
    raises. *)
Lemma launch_decode_counterexample :
  launch_agent (L := sample_library) sample_config no_content_post
    scenario_a_task true
  = Raise JSONDecodeError
  /\ ~ (exists v,
          launch_agent (L := sample_library) sample_config no_content_post
            scenario_a_task true
          = Return (Py.Dict [("success", Py.Bool true); ("result", v)])).
Proof.
  split; [reflexivity|]. intros [v H]. discriminate H.
Qed.

Lemma launch_failure_not_retried_witness :
  exists error,
    error <> ""
    /\ AgentRouterWorkflow.run (L := sample_library) sample_config failing_env
         scenario_a_task true None
       = ([RetrieveAttempt 1] ++ [LaunchAttempt 1],
          Return (Py.Dict [("success", Py.Bool false);
                           ("error", Py.Str error)]))
    /\ launch_attempts
         (fst (AgentRouterWorkflow.run (L := sample_library) sample_config
                 failing_env scenario_a_task true None)) = 1.
Proof.
  apply (launch_failure_not_retried (L := sample_library) sample_config
           failing_env scenario_a_task scenario_a_task true None
           [RetrieveAttempt 1]).
  - intros status url. cbn. discriminate.
  - reflexivity.
  - intros n req. eexists. split; reflexivity.
Defined.

Example launch_agent_sample :
  launch_agent (L := sample_library) sample_config
    (fun _ => Return {| status_code := 200; body := "{}" |})
    scenario_a_task true
  = Return (Py.Dict [("success", Py.Bool true); ("result", Py.Dict [])])
  /\ launch_agent (L := sample_library) sample_config
       (fun _ => Raise (HTTPError "connection refused"))
       scenario_a_task true
     = Return (Py.Dict [("success", Py.Bool false);
                        ("error", Py.Str "connection refused")]).
Proof. split; reflexivity. Qed.

(** C4 as stated fails: with HTTP 500 on every attempt the launch step is
    attempted once, while its retry policy allows 2 attempts. *)
Lemma launch_retry_counterexample :
  launch_attempts
    (fst (AgentRouterWorkflow.run (L := sample_library) sample_config
            failing_env scenario_a_task true None)) = 1
  /\ launch_attempts
       (fst (AgentRouterWorkflow.run (L := sample_library) sample_config
               failing_env scenario_a_task true None))
     <> AgentRouterWorkflow.launch_maximum_attempts.
Proof. split; [reflexivity | discriminate]. Qed.

(* ------------------------------------------------------------------ *)
(** ** ORDER BY ... LIMIT 1 *)
(* ------------------------------------------------------------------ *)

Section OrderByFacts.
Context {A : Type} (before : A -> A -> bool).
Hypothesis before_total : forall a b, before a b = true \/ before b a = true.
Hypothesis before_trans :
  forall a b c, before a b = true -> before b c = true -> before a c = true.

Lemma insert_by_in (x y : A) (l : list A) :
  In y (insert_by before x l) <-> y = x \/ In y l.
Proof.
  induction l as [|z l IH]; cbn.
  - intuition.
  - destruct (before x z); cbn; [intuition|].
    rewrite IH. intuition.
Qed.

Lemma order_by_in (y : A) (l : list A) :
  In y (order_by before l) <-> In y l.
Proof.
  induction l as [|x l IH]; cbn; [reflexivity|].
  rewrite insert_by_in, IH. intuition.
Qed.

(** The first row of the ordered list may stand before every row. *)
Lemma order_by_head (l : list A) (h : A) :
  hd_error (order_by before l) = Some h ->
  In h l /\ forall y, In y l -> before h y = true.
Proof.
  revert h. induction l as [|x l IH]; intros h; cbn; [discriminate|].
  destruct (order_by before l) as [|z r] eqn:Ho; cbn.
  - intros [= <-].
    assert (Hl : l = []).
    { destruct l as [|w l']; [reflexivity|].
      assert (Hin : In w (order_by before (w :: l')))
        by (apply order_by_in; now left).
      rewrite Ho in Hin. destruct Hin. }
    subst l. split; [now left|].
    intros y [<-|[]]. destruct (before_total x x); assumption.
  - destruct (IH z eq_refl) as [Hz Hdom].
    destruct (before x z) eqn:Hxz; cbn; intros [= <-].
    + split; [now left|].
      intros y [<-|Hy].
      * destruct (before_total x x); assumption.
      * eapply before_trans; [exact Hxz | now apply Hdom].
    + split; [now right|].
      intros y [<-|Hy]; [|now apply Hdom].
      destruct (before_total x z) as [H|H]; [congruence|exact H].
Qed.

Lemma order_by_nil (l : list A) : order_by before l = [] -> l = [].
Proof.
  destruct l as [|w l']; [reflexivity|]. intros Ho.
  assert (Hin : In w (order_by before (w :: l')))
    by (apply order_by_in; now left).
  rewrite Ho in Hin. destruct Hin.
Qed.

End OrderByFacts.

(* ------------------------------------------------------------------ *)
(** ** The candidate query *)
(* ------------------------------------------------------------------ *)

Section CandidateQuery.
Context {L : Library}.

Lemma text_is_spec (x : option string) (lit : string) :
  text_is x lit = true <-> x = Some lit.
Proof.
  destruct x as [s|]; cbn.
  - rewrite String.eqb_eq. split; [now intros -> | now intros [= ->]].
  - split; discriminate.
Qed.

Lemma text_like_spec (x : option string) (lit : string) :
  text_like x lit = true
  <-> exists r, x = Some r /\ PyStr.contains lit r = true.
Proof.
  destruct x as [s|]; cbn.
  - split; [eauto | now intros (r & [= ->] & H)].
  - split; [discriminate | now intros (r & H & _)].
Qed.

Lemma score_gt_spec (a b : Q) : score_gt a b = true <-> (b < a)%Q.
Proof.
  unfold score_gt. rewrite (Qgt_alt a b).
  destruct (a ?= b)%Q; split; congruence.
Qed.

Lemma answer_event_of_spec (t : trajectory) (te : trajectory_event) :
  answer_event_of t te = true <-> successful_answer t te.
Proof.
  unfold answer_event_of, successful_answer.
  rewrite !andb_true_iff, !String.eqb_eq, !text_is_spec, text_like_spec.
  tauto.
Qed.

Lemma candidate_where_spec (db : database) (url obj org_id : string)
    (t : trajectory) :
  candidate_where db url obj org_id t = true <-> qualifies db url obj org_id t.
Proof.
  unfold candidate_where, qualifies, eligible, ran_headless.
  rewrite !andb_true_iff, !String.eqb_eq, !text_is_spec, score_gt_spec,
    existsb_exists.
  assert (He : (match t_error t with None => true | Some _ => false end) = true
               <-> t_error t = None).
  { destruct (t_error t); split; congruence. }
  rewrite He.
  assert (Hx : (exists te, In te (trajectory_event_table db)
                           /\ answer_event_of t te = true)
               <-> (exists te, In te (trajectory_event_table db)
                               /\ successful_answer t te)).
  { split; intros (te & Hin & H); exists te; split; auto;
      now apply answer_event_of_spec. }
  rewrite Hx. tauto.
Qed.

Lemma candidate_before_spec (obj : string) (a b : trajectory) :
  candidate_before obj a b = true
  <-> (similarity (t_objective b) obj < similarity (t_objective a) obj)%Q
      \/ ((similarity (t_objective a) obj == similarity (t_objective b) obj)%Q
          /\ (t_created_at b <= t_created_at a)%Z).
Proof.
  unfold candidate_before.
  destruct (Qcompare_spec (similarity (t_objective a) obj)
              (similarity (t_objective b) obj)) as [He|Hl|Hg].
  - rewrite Z.leb_le. split; [auto|].
    intros [H|[_ H]]; [|exact H].
    rewrite He in H. now apply Qlt_irrefl in H.
  - split; [discriminate|].
    intros [H|[H _]].
    + exfalso. apply (Qlt_irrefl (similarity (t_objective a) obj)).
      eapply Qlt_trans; eauto.
    + rewrite H in Hl. now apply Qlt_irrefl in Hl.
  - split; auto.
Qed.

Lemma candidate_before_total (obj : string) (a b : trajectory) :
  candidate_before obj a b = true \/ candidate_before obj b a = true.
Proof.
  rewrite !candidate_before_spec.
  destruct (Qcompare_spec (similarity (t_objective a) obj)
              (similarity (t_objective b) obj)) as [He|Hl|Hg]; auto.
  destruct (Z.le_ge_cases (t_created_at a) (t_created_at b)).
  - right. right. split; [now symmetry|assumption].
  - left. right. split; assumption.
Qed.

Lemma candidate_before_trans (obj : string) (a b c : trajectory) :
  candidate_before obj a b = true -> candidate_before obj b c = true ->
  candidate_before obj a c = true.
Proof.
  rewrite !candidate_before_spec.
  intros [H1|[H1 H1']] [H2|[H2 H2']].
  - left. eapply Qlt_trans; eauto.
  - left. now rewrite <- H2.
  - left. now rewrite H1.
  - right. split; [now rewrite H1|lia].
Qed.

End CandidateQuery.

Section Selection.
Context {L : Library}.

Lemma hd_error_map {A B} (f : A -> B) (l : list A) (b : B) :
  hd_error (map f l) = Some b -> exists a, hd_error l = Some a /\ b = f a.
Proof. destruct l as [|a l]; cbn; [discriminate|]. intros [= <-]. eauto. Qed.

(** The selected row comes from a qualifying trajectory that may stand
    before every qualifying trajectory. *)
Lemma candidate_query_some (db : database) (url obj s : string)
    (row : candidate_row) :
  candidate_query db url obj s = Some row ->
  exists t,
    In t (trajectory_table db)
    /\ qualifies db url obj s t
    /\ row = select_candidate obj t
    /\ forall t', In t' (trajectory_table db) -> qualifies db url obj s t' ->
                  candidate_before obj t t' = true.
Proof.
  unfold candidate_query, candidates. intros H.
  apply hd_error_map in H as (t & Hh & ->).
  apply (order_by_head _ (candidate_before_total obj)
           (candidate_before_trans obj)) in Hh as [Hin Hdom].
  apply filter_In in Hin as [Hin Hw].
  exists t. split; [exact Hin|].
  split; [now apply candidate_where_spec|].
  split; [reflexivity|].
  intros t' Hin' Hq'. apply Hdom. apply filter_In. split; [exact Hin'|].
  now apply candidate_where_spec.
Qed.

Lemma candidate_query_none (db : database) (url obj s : string) :
  candidate_query db url obj s = None
  <-> forall t, In t (trajectory_table db) -> ~ qualifies db url obj s t.
Proof.
  unfold candidate_query, candidates. split.
  - intros H t Hin Hq.
    destruct (order_by (candidate_before obj)
                (filter (candidate_where db url obj s) (trajectory_table db)))
      as [|x r] eqn:Ho; [|discriminate].
    apply order_by_nil in Ho.
    assert (Hf : In t (filter (candidate_where db url obj s)
                         (trajectory_table db))).
    { apply filter_In. split; [exact Hin|]. now apply candidate_where_spec. }
    rewrite Ho in Hf. destruct Hf.
  - intros Hno.
    destruct (order_by (candidate_before obj)
                (filter (candidate_where db url obj s) (trajectory_table db)))
      as [|x r] eqn:Ho; [reflexivity|].
    assert (Hx : In x (order_by (candidate_before obj)
                (filter (candidate_where db url obj s) (trajectory_table db))))
      by (rewrite Ho; now left).
    apply order_by_in, filter_In in Hx as [Hin Hw].
    exfalso. apply (Hno x Hin). now apply candidate_where_spec.
Qed.

(** C6.  Past the gate, when the candidate query runs: if some trajectory
    qualifies, [get_similar_trajectory] works on exactly one of them, a
    qualifying trajectory whose similarity score is the highest among the
    qualifying ones and whose creation time is the most recent among those
    of that score -- the row fetched carries its id, start URL, objective
    and score, the events query is sent for its id right after the
    candidate query, and the returned task is built from its events; if
    none qualifies, no row is fetched, no events query is sent and the
    task is returned unchanged. *)
Theorem candidate_ranking (db : database) (t : task) (s : string) :
  ~ gated (Some s) ->
  query_fault (db_faults db) = None ->
  (exists tj,
     In tj (trajectory_table db)
     /\ qualifies db (start_url t) (objective t) s tj
     /\ (forall tj',
           In tj' (trajectory_table db) ->
           qualifies db (start_url t) (objective t) s tj' ->
           (similarity (t_objective tj') (objective t)
            <= similarity (t_objective tj) (objective t))%Q
           /\ ((similarity (t_objective tj') (objective t)
                == similarity (t_objective tj) (objective t))%Q ->
               (t_created_at tj' <= t_created_at tj)%Z))
     /\ candidate_query db (start_url t) (objective t) s
        = Some (t_id tj, t_start_url tj, t_objective tj,
                similarity (t_objective tj) (objective t))
     /\ fst (retrieve_trajectory db t (Some s))
        = extension_trace db
          ++ [CandidateQuery (start_url t) (objective t) s;
              EventsQuery (t_id tj)]
     /\ (events_fault (db_faults db) = None ->
         forall lines,
           format_events (events_query db (t_id tj)) [] 1 = Return lines ->
           snd (retrieve_trajectory db t (Some s))
           = Return (if PyStr.join PyStr.nl lines =? "" then t
                     else {| objective :=
                               (objective t
                                ++ format_trajectory_as_instructions
                                     (PyStr.join PyStr.nl lines))%string;
                             start_url := start_url t |})))
  \/ ((forall tj, In tj (trajectory_table db) ->
                  ~ qualifies db (start_url t) (objective t) s tj)
      /\ candidate_query db (start_url t) (objective t) s = None
      /\ retrieve_trajectory db t (Some s)
         = (extension_trace db
            ++ [CandidateQuery (start_url t) (objective t) s],
            Return t)).
Proof.
  intros Hg Hq.
  pose proof (get_similar_trajectory_open db (objective t) (start_url t)
                (Some s) Hg) as (s' & Hs' & Heq).
  injection Hs' as <-.
  destruct (candidate_query db (start_url t) (objective t) s) as [row|] eqn:Hc.
  - left.
    destruct (candidate_query_some _ _ _ _ _ Hc)
      as (tj & Hin & Hqual & -> & Hdom).
    unfold select_candidate in Hc.
    exists tj. split; [exact Hin|]. split; [exact Hqual|].
    split; [|split; [reflexivity|split]].
    + intros tj' Hin' Hq'. specialize (Hdom tj' Hin' Hq').
      apply candidate_before_spec in Hdom. split.
      * destruct Hdom as [Hlt|[He _]].
        -- now apply Qlt_le_weak.
        -- rewrite He. apply Qle_refl.
      * intros He. destruct Hdom as [Hlt|[_ Hle]]; [|exact Hle].
        rewrite He in Hlt. now apply Qlt_irrefl in Hlt.
    + rewrite retrieve_trajectory_split, Heq. cbn [fst].
      rewrite after_gate_trace. unfold events_statement.
      now rewrite Hq, Hc.
    + intros He lines Hf.
      rewrite (retrieve_open db t s Hg), after_gate_result, Hq, Hc, He.
      destruct (events_query db (t_id tj)) as [|ev evs] eqn:Hev.
      * cbn in Hf. injection Hf as <-. reflexivity.
      * rewrite Hf. cbn [handled enhance].
        destruct (PyStr.join PyStr.nl lines =? ""); reflexivity.
  - right.
    split; [now apply candidate_query_none|]. split; [reflexivity|].
    rewrite retrieve_trajectory_split, Heq. cbn [fst snd].
    rewrite after_gate_trace, after_gate_result. unfold events_statement.
    now rewrite Hq, Hc.
Qed.

End Selection.

(** On the sample store, tenant [org-1] asking for "find price" gets [t4]:
    [t3] scores lower, [t1] ties on the score and is older, [t2] belongs
    to another tenant. *)
Lemma candidate_ranking_witness :
  (exists tj,
     In tj (trajectory_table sample_db)
     /\ qualifies (L := sample_library) sample_db (start_url scenario_a_task)
          (objective scenario_a_task) "org-1" tj
     /\ (forall tj',
           In tj' (trajectory_table sample_db) ->
           qualifies (L := sample_library) sample_db
             (start_url scenario_a_task) (objective scenario_a_task)
             "org-1" tj' ->
           (similarity (Library := sample_library) (t_objective tj')
              (objective scenario_a_task)
            <= similarity (Library := sample_library) (t_objective tj)
                 (objective scenario_a_task))%Q
           /\ ((similarity (Library := sample_library) (t_objective tj')
                  (objective scenario_a_task)
                == similarity (Library := sample_library) (t_objective tj)
                     (objective scenario_a_task))%Q ->
               (t_created_at tj' <= t_created_at tj)%Z))
     /\ candidate_query (L := sample_library) sample_db
          (start_url scenario_a_task) (objective scenario_a_task) "org-1"
        = Some (t_id tj, t_start_url tj, t_objective tj,
                similarity (Library := sample_library) (t_objective tj)
                  (objective scenario_a_task))
     /\ fst (retrieve_trajectory (L := sample_library) sample_db
               scenario_a_task (Some "org-1"))
        = extension_trace sample_db
          ++ [CandidateQuery (start_url scenario_a_task)
                (objective scenario_a_task) "org-1";
              EventsQuery (t_id tj)]
     /\ (events_fault (db_faults sample_db) = None ->
         forall lines,
           format_events (L := sample_library)
             (events_query (L := sample_library) sample_db (t_id tj)) [] 1
           = Return lines ->
           snd (retrieve_trajectory (L := sample_library) sample_db
                  scenario_a_task (Some "org-1"))
           = Return (if PyStr.join PyStr.nl lines =? ""
                     then scenario_a_task
                     else {| objective :=
                               (objective scenario_a_task
                                ++ format_trajectory_as_instructions
                                     (PyStr.join PyStr.nl lines))%string;
                             start_url := start_url scenario_a_task |})))
  \/ ((forall tj, In tj (trajectory_table sample_db) ->
                  ~ qualifies (L := sample_library) sample_db
                      (start_url scenario_a_task)
                      (objective scenario_a_task) "org-1" tj)
      /\ candidate_query (L := sample_library) sample_db
           (start_url scenario_a_task) (objective scenario_a_task) "org-1"
         = None
      /\ retrieve_trajectory (L := sample_library) sample_db scenario_a_task
           (Some "org-1")
         = (extension_trace sample_db
            ++ [CandidateQuery (start_url scenario_a_task)
                  (objective scenario_a_task) "org-1"],
            Return scenario_a_task)).
Proof.
  apply (candidate_ranking (L := sample_library) sample_db scenario_a_task
           "org-1").
  - intros H. apply gated_closed in H. discriminate H.
  - reflexivity.
Defined.

(** On the sample store the events query is sent for [t4], the latest of
    the two best-scoring trajectories of tenant [org-1]. *)
Example ranked_trajectory_sample :
  fst (retrieve_trajectory (L := sample_library) sample_db scenario_a_task
         (Some "org-1"))
  = [CreateExtension; Commit;
     CandidateQuery "https://x" "find price" "org-1"; EventsQuery "t4"].
Proof. reflexivity. Qed.

Example candidate_query_sample :
  candidate_query (L := sample_library) sample_db "https://x" "find price"
    "org-1"
  = Some ("t4", "https://x", "find price", (10 # 10)%Q)
  /\ candidate_query (L := sample_library) sample_db "https://x" "find price"
       "org-3"
     = None.
Proof. split; reflexivity. Qed.

(* ------------------------------------------------------------------ *)
(** ** Tenant isolation *)
(* ------------------------------------------------------------------ *)

Section Isolation.
Context {L : Library}.

Lemma handled_return r a : handled r = Return (Some a) -> r = Return (Some a).
Proof.
  destruct r as [x|e]; cbn; [auto|].
  destruct e; cbn; try discriminate.
  destruct (PyStr.contains _ msg); discriminate.
Qed.

(** A trajectory text is only ever produced from an eligible trajectory of
    the requesting tenant, out of that trajectory's events. *)
Lemma get_similar_trajectory_some (db : database) (obj url : string)
    (org_id : option string) (text : string) :
  snd (get_similar_trajectory db obj url org_id) = Return (Some text) ->
  exists s tj steps,
    org_id = Some s
    /\ ~ gated org_id
    /\ In tj (trajectory_table db)
    /\ t_start_url tj = url
    /\ eligible db obj s tj
    /\ format_events (events_query db (t_id tj)) [] 1 = Return steps
    /\ text = PyStr.join PyStr.nl steps.
Proof.
  intros H.
  destruct (gate_closed org_id) eqn:Hc.
  { apply gated_closed in Hc.
    rewrite get_similar_trajectory_closed in H by assumption. discriminate. }
  assert (Hg : ~ gated org_id) by (rewrite gated_closed, Hc; discriminate).
  destruct (get_similar_trajectory_open db obj url org_id Hg)
    as (s & -> & Heq).
  rewrite Heq in H. cbn [snd] in H. apply handled_return in H.
  rewrite after_gate_result in H.
  destruct (query_fault (db_faults db)); [discriminate|].
  destruct (candidate_query db url obj s) as [[[[i u] o] q]|] eqn:Hq;
    [|discriminate].
  destruct (events_fault (db_faults db)); [discriminate|].
  apply candidate_query_some in Hq as (tj & Hin & [Hurl Hel] & Hrow & _).
  injection Hrow as -> _ _ _.
  destruct (events_query db (t_id tj)) as [|ev evs] eqn:He; [discriminate|].
  destruct (format_events (ev :: evs) [] 1) as [steps|] eqn:Hf;
    [|discriminate].
  injection H as <-.
  exists s, tj, steps.
  split; [reflexivity|]. split; [exact Hg|]. split; [exact Hin|].
  split; [exact Hurl|]. split; [exact Hel|].
  split; [now rewrite He|reflexivity].
Qed.

(** The rows of the events query are rows of the selected trajectory. *)
Lemma events_query_provenance (db : database) (trajectory_id : string)
    (ev : event_row) :
  In ev (events_query db trajectory_id) ->
  exists te,
    In te (trajectory_event_table db)
    /\ te_trajectory_id te = trajectory_id
    /\ ev = select_event te.
Proof.
  unfold events_query. intros H.
  apply in_map_iff in H as (te & <- & Hin).
  apply order_by_in, filter_In in Hin as [Hin Hw].
  exists te. split; [exact Hin|]. split; [|reflexivity].
  unfold events_where in Hw.
  apply andb_true_iff in Hw as [Hw _].
  apply andb_true_iff in Hw as [Hw _].
  now apply String.eqb_eq in Hw.
Qed.

(** C1.  Whatever [retrieve_trajectory] returns is either the task
    unchanged, or the task enhanced with the events of a stored trajectory
    that meets every eligibility condition: it belongs to the requesting
    tenant, is completed, has no error, ran headless, has a similarity
    above 0.1 and has an event recording a successful validated answer;
    the events used are rows of that trajectory.
    A trajectory failing one of the conditions -- in particular one of
    another tenant -- is never the source of an enhanced task. *)
Theorem tenant_isolation (db : database) (t : task)
    (org_id : option string) (t' : task) :
  snd (retrieve_trajectory db t org_id) = Return t' ->
  t' = t
  \/ exists s tj steps,
       org_id = Some s
       /\ ~ gated org_id
       /\ In tj (trajectory_table db)
       /\ t_org_id tj = org_id
       /\ t_start_url tj = start_url t
       /\ eligible db (objective t) s tj
       /\ (forall ev, In ev (events_query db (t_id tj)) ->
                      exists te, In te (trajectory_event_table db)
                                 /\ te_trajectory_id te = t_id tj
                                 /\ ev = select_event te)
       /\ format_events (events_query db (t_id tj)) [] 1 = Return steps
       /\ t' = {| objective :=
                    (objective t
                     ++ format_trajectory_as_instructions
                          (PyStr.join PyStr.nl steps))%string;
                  start_url := start_url t |}.
Proof.
  rewrite retrieve_trajectory_split. cbn [snd].
  destruct (snd (get_similar_trajectory db (objective t) (start_url t) org_id))
    as [[text|]|e] eqn:Hg; cbn; try discriminate.
  - destruct (text =? ""); intros [= <-]; [now left|].
    right.
    apply get_similar_trajectory_some in Hg
      as (s & tj & steps & -> & Hng & Hin & Hurl & Hel & Hf & ->).
    exists s, tj, steps.
    split; [reflexivity|]. split; [exact Hng|]. split; [exact Hin|].
    split; [apply Hel|]. split; [exact Hurl|]. split; [exact Hel|].
    split; [apply events_query_provenance|].
    split; [exact Hf|reflexivity].
  - intros [= <-]. now left.
Qed.

End Isolation.

Lemma tenant_isolation_witness :
  snd (retrieve_trajectory (L := sample_library) sample_db scenario_a_task
         (Some "org-1"))
  = Return sample_enhanced_task
  /\ (sample_enhanced_task = scenario_a_task
      \/ exists s tj steps,
           Some "org-1" = Some s
           /\ ~ gated (Some "org-1")
           /\ In tj (trajectory_table sample_db)
           /\ t_org_id tj = Some "org-1"
           /\ t_start_url tj = start_url scenario_a_task
           /\ eligible (L := sample_library) sample_db
                (objective scenario_a_task) s tj
           /\ (forall ev,
                 In ev (events_query (L := sample_library) sample_db
                          (t_id tj)) ->
                 exists te, In te (trajectory_event_table sample_db)
                            /\ te_trajectory_id te = t_id tj
                            /\ ev = select_event te)
           /\ format_events (L := sample_library)
                (events_query (L := sample_library) sample_db (t_id tj)) [] 1
              = Return steps
           /\ sample_enhanced_task
              = {| objective :=
                     (objective scenario_a_task
                      ++ format_trajectory_as_instructions
                           (PyStr.join PyStr.nl steps))%string;
                   start_url := start_url scenario_a_task |}).
Proof.
  split; [reflexivity|].
  apply (tenant_isolation (L := sample_library) sample_db scenario_a_task
           (Some "org-1") sample_enhanced_task).
  reflexivity.
Defined.

(* ------------------------------------------------------------------ *)
(** ** The formatter *)
(* ------------------------------------------------------------------ *)

Lemma rbind_return {A B} (m : result A) (k : A -> result B) (b : B) :
  rbind m k = Return b -> exists a, m = Return a /\ k a = Return b.
Proof. destruct m as [a|e]; cbn; [eauto|discriminate]. Qed.

Lemma prefix_refl (s : string) : prefix s s = true.
Proof.
  induction s as [|c s IH]; cbn; [reflexivity|].
  destruct (ascii_dec c c); [exact IH|congruence].
Qed.

Lemma contains_refl (s : string) : PyStr.contains s s = true.
Proof. destruct s; cbn -[prefix]; now rewrite ?prefix_refl. Qed.

Section Formatter.
Context {L : Library}.

Lemma tool_name_args (req name : Py.value) :
  tool_name_of req = Return name -> exists args, tool_args_of req = Return args.
Proof.
  unfold tool_name_of, tool_args_of.
  destruct (Py.truthy req); [|eauto].
  destruct req; cbn; try discriminate.
  intros _. destruct (Py.lookup "args" entries); eauto.
Qed.

Lemma answer_named_continue (ev : event_row) :
  answer_named ev = true -> event_action ev = Return Continue.
Proof.
  destruct ev as [[i req] res]. unfold answer_named, event_action.
  destruct (load_tool_req req) as [req'|]; [|discriminate].
  destruct (tool_name_of req') as [[| | | |name| |]|] eqn:Hn;
    try discriminate.
  intros Hc. destruct (tool_name_args _ _ Hn) as [args ->].
  cbn. unfold is_answer. cbn.
  destruct (name =? "answer"); cbn; [reflexivity|].
  rewrite Hc. reflexivity.
Qed.

Lemma step_tool_name (i : Z) (req res : Py.value) (simplified_name : string)
    (action_details : Py.dict) :
  event_action (i, req, res) = Return (Step simplified_name action_details) ->
  exists req' tool_name,
    load_tool_req req = Some req'
    /\ tool_name_of req' = Return (Py.Str tool_name)
    /\ tool_name <> "answer"
    /\ PyStr.contains "answer" tool_name = false
    /\ simplified_name
       = PyStr.replace "_web" "" (PyStr.replace "_localizer_web" "" tool_name).
Proof.
  unfold event_action.
  destruct (load_tool_req req) as [req'|]; [|discriminate].
  intros H.
  apply rbind_return in H as (tn & Hn & H).
  apply rbind_return in H as (args & _ & H).
  apply rbind_return in H as (answer & Ha & H).
  destruct answer; [discriminate|].
  apply rbind_return in H as (sn & Hs & H).
  repeat (apply rbind_return in H as (? & _ & H)).
  injection H as -> _.
  destruct tn; try discriminate.
  exists req', s. split; [reflexivity|]. split; [exact Hn|].
  unfold is_answer in Ha. cbn in Ha.
  destruct (s =? "answer") eqn:He; [discriminate|].
  apply String.eqb_neq in He. injection Ha as Ha.
  cbn in Hs. injection Hs as <-. auto.
Qed.

Lemma format_events_erase (events : list event_row) (acc : list string)
    (n : nat) :
  format_events (filter (fun ev => negb (answer_named ev)) events) acc n
  = format_events events acc n.
Proof.
  revert acc n. induction events as [|ev rest IH]; intros acc n;
    [reflexivity|].
  cbn [filter]. destruct (answer_named ev) eqn:Ha; cbn [negb].
  - cbn [format_events]. rewrite (answer_named_continue ev Ha). apply IH.
  - cbn [format_events].
    destruct (event_action ev) as [[|? ?]|?]; auto.
Qed.

(** C8.  An event whose tool name is ["answer"] or contains ["answer"]
    makes the loop [continue]; deleting all such events from the sequence
    changes nothing in what the loop produces; and every step that is
    emitted comes from an event whose tool name is a string that is not
    ["answer"] and does not contain it. *)
Theorem answer_actions_suppressed :
  (forall i req res req' tool_name,
     load_tool_req req = Some req' ->
     tool_name_of req' = Return (Py.Str tool_name) ->
     tool_name = "answer" \/ PyStr.contains "answer" tool_name = true ->
     event_action (i, req, res) = Return Continue)
  /\ (forall events acc n,
        format_events (filter (fun ev => negb (answer_named ev)) events) acc n
        = format_events events acc n)
  /\ (forall i req res simplified_name action_details,
        event_action (i, req, res)
        = Return (Step simplified_name action_details) ->
        exists req' tool_name,
          load_tool_req req = Some req'
          /\ tool_name_of req' = Return (Py.Str tool_name)
          /\ tool_name <> "answer"
          /\ PyStr.contains "answer" tool_name = false).
Proof.
  repeat apply conj.
  - intros i req res req' tool_name Hl Hn Ha.
    apply answer_named_continue. unfold answer_named. rewrite Hl, Hn.
    destruct Ha as [->|Ha]; [apply contains_refl|exact Ha].
  - apply format_events_erase.
  - intros i req res sn ad H.
    destruct (step_tool_name _ _ _ _ _ H) as (req' & tn & H1 & H2 & H3 & H4 & _).
    eauto 6.
Qed.

Lemma format_events_surviving (events : list event_row) (acc : list string)
    (n : nat) (lines : list string) :
  format_events events acc n = Return lines ->
  lines = acc ++ number_from n (surviving events).
Proof.
  revert acc n. induction events as [|ev rest IH]; intros acc n; cbn.
  - intros [= <-]. now rewrite app_nil_r.
  - destruct (event_action ev) as [[|name details]|e]; [apply IH| |discriminate].
    intros H. apply IH in H. rewrite H, <- app_assoc. reflexivity.
Qed.

Lemma number_from_length (k : nat) (steps : list (string * Py.dict)) :
  length (number_from k steps) = length steps.
Proof.
  revert k. induction steps as [|[name details] rest IH]; intros k; cbn;
    [reflexivity|]. now rewrite IH.
Qed.

Lemma number_from_nth (k i : nat) (steps : list (string * Py.dict))
    (line : string) :
  nth_error (number_from k steps) i = Some line ->
  exists name details,
    nth_error steps i = Some (name, details)
    /\ line = step_line (k + i) name details.
Proof.
  revert k i. induction steps as [|[name details] rest IH]; intros k i; cbn.
  - destruct i; discriminate.
  - destruct i as [|i]; cbn.
    + intros [= <-]. exists name, details. now rewrite Nat.add_0_r.
    + intros H. apply IH in H as (nm & dt & H1 & ->).
      exists nm, dt. split; [exact H1|]. f_equal. lia.
Qed.

Lemma surviving_length (events : list event_row) :
  length (surviving events) = length (filter emits events).
Proof.
  induction events as [|ev rest IH]; cbn; [reflexivity|].
  unfold emits at 1.
  destruct (event_action ev) as [[|? ?]|?]; cbn; auto.
Qed.

(** C9.  When the loop ends normally, its lines are the surviving events'
    steps in their original order, numbered contiguously from 1: line
    number [i] (from 0) carries the number [i + 1] and the step of the
    [i]-th surviving event, and there are as many lines as events that
    reach the append, whatever the number of events read. *)
Theorem contiguous_numbering (events : list event_row) (lines : list string) :
  format_events events [] 1 = Return lines ->
  lines = number_from 1 (surviving events)
  /\ length lines = length (filter emits events)
  /\ forall i line,
       nth_error lines i = Some line ->
       exists simplified_name action_details,
         nth_error (surviving events) i
         = Some (simplified_name, action_details)
         /\ line = (PyStr.of_nat (i + 1) ++ ". " ++ simplified_name ++ "("
                    ++ json_dumps (Py.Dict action_details) ++ ")")%string.
Proof.
  intros H. apply format_events_surviving in H. cbn [app] in H. subst lines.
  split; [reflexivity|].
  split; [now rewrite number_from_length, surviving_length|].
  intros i line Hn. apply number_from_nth in Hn as (nm & dt & H1 & ->).
  exists nm, dt. split; [exact H1|].
  unfold step_line. now rewrite (Nat.add_comm 1 i).
Qed.

End Formatter.

Example answer_event_sample :
  event_action (L := sample_library)
    (2%Z, Py.Dict [("tool_name", Py.Str "final_answer_web")], Py.None_)
  = Return Continue.
Proof. reflexivity. Qed.

(** Scenario B: the three tool-result events of [t4], one of them the
    answer, give exactly two numbered lines. *)
Lemma contiguous_numbering_witness :
  length (events_query (L := sample_library) sample_db "t4") = 3
  /\ format_events (L := sample_library)
       (events_query (L := sample_library) sample_db "t4") [] 1
     = Return ["1. click({...})"; "2. type({...})"]
  /\ ["1. click({...})"; "2. type({...})"]
     = number_from (L := sample_library) 1
         (surviving (L := sample_library)
            (events_query (L := sample_library) sample_db "t4"))
  /\ length ["1. click({...})"; "2. type({...})"]
     = length (filter (emits (L := sample_library))
                 (events_query (L := sample_library) sample_db "t4"))
  /\ forall i line,
       nth_error ["1. click({...})"; "2. type({...})"] i = Some line ->
       exists simplified_name action_details,
         nth_error (surviving (L := sample_library)
                      (events_query (L := sample_library) sample_db "t4")) i
         = Some (simplified_name, action_details)
         /\ line = (PyStr.of_nat (i + 1) ++ ". " ++ simplified_name ++ "("
                    ++ json_dumps (Library := sample_library)
                         (Py.Dict action_details) ++ ")")%string.
Proof.
  split; [reflexivity|]. split; [reflexivity|].
  apply (contiguous_numbering (L := sample_library)
           (events_query (L := sample_library) sample_db "t4")
           ["1. click({...})"; "2. type({...})"]).
  reflexivity.
Defined.

(* ------------------------------------------------------------------ *)
(** ** The instruction wrapper *)
(* ------------------------------------------------------------------ *)

(** The header the wrapper writes does not carry the marker the wrapper
    looks for. *)
Lemma header_lacks_marker : PyStr.contains marker header = false.
Proof. vm_compute. reflexivity. Qed.

(** Text that carries the marker is returned as it is, so the wrapper is
    idempotent on it. *)
Lemma format_marked (x : string) :
  PyStr.contains marker x = true ->
  format_trajectory_as_instructions x = x
  /\ format_trajectory_as_instructions (format_trajectory_as_instructions x)
     = format_trajectory_as_instructions x.
Proof.
  intros H.
  assert (Hx : format_trajectory_as_instructions x = x).
  { unfold format_trajectory_as_instructions. rewrite H.
    destruct (x =? "") eqn:He; [|reflexivity].
    apply String.eqb_eq in He. now subst x. }
  now rewrite !Hx.
Qed.

(** C7 fails on the code.  The wrapper applied twice to an unmarked text
    wraps it twice: the marker test looks for ["## Similar Trajectory"],
    which the header does not contain. *)
Theorem format_twice_wraps_twice :
  format_trajectory_as_instructions "1. click({})"
  = (header ++ "1. click({})")%string
  /\ format_trajectory_as_instructions
       (format_trajectory_as_instructions "1. click({})")
     = (header ++ header ++ "1. click({})")%string
  /\ format_trajectory_as_instructions
       (format_trajectory_as_instructions "1. click({})")
     <> format_trajectory_as_instructions "1. click({})".
Proof.
  split; [vm_compute; reflexivity|].
  split; [vm_compute; reflexivity|].
  intros H. apply (f_equal String.length) in H.
  vm_compute in H. discriminate H.
Qed.

(* ------------------------------------------------------------------ *)
(** ** Further properties of the retrieval step *)
(* ------------------------------------------------------------------ *)

Lemma append_nil_r (s : string) : (s ++ "")%string = s.
Proof. induction s as [|c s IH]; cbn; [reflexivity | now rewrite IH]. Qed.

Lemma append_length (a b : string) :
  String.length (a ++ b) = String.length a + String.length b.
Proof. induction a as [|c a IH]; cbn; [reflexivity | now rewrite IH]. Qed.

Lemma length_zero (s : string) : String.length s = 0 -> s = "".
Proof. destruct s; [reflexivity | discriminate]. Qed.

Lemma header_length : 0 < String.length header.
Proof. vm_compute. lia. Qed.

Lemma format_nonempty (x : string) :
  x <> "" -> format_trajectory_as_instructions x <> "".
Proof.
  intros Hx. unfold format_trajectory_as_instructions.
  destruct (x =? "") eqn:He; [apply String.eqb_eq in He; contradiction|].
  destruct (PyStr.contains marker x); [exact Hx|].
  intros H. apply (f_equal String.length) in H.
  rewrite append_length in H. pose proof header_length. cbn in H. lia.
Qed.

Lemma append_same_length (a b : string) : (a ++ b)%string = a -> b = "".
Proof.
  intros H. apply (f_equal String.length) in H.
  rewrite append_length in H. apply length_zero. lia.
Qed.

Section RetrievalShape.
Context {L : Library}.

(** X1.  Whatever the store holds, [retrieve_trajectory] keeps the start URL,
    and the objective it returns is the original objective followed by
    a suffix; the suffix is empty exactly when the task is returned
    unchanged. *)
Theorem retrieve_extends_objective (db : database) (t : task)
    (org_id : option string) (t' : task) :
  snd (retrieve_trajectory db t org_id) = Return t' ->
  start_url t' = start_url t
  /\ exists suffix,
       objective t' = (objective t ++ suffix)%string
       /\ (suffix = "" <-> t' = t).
Proof.
  rewrite retrieve_trajectory_split. cbn [snd].
  destruct (snd (get_similar_trajectory db (objective t) (start_url t) org_id))
    as [[text|]|e]; cbn; try discriminate.
  - destruct (text =? "") eqn:He; intros [= <-].
    + split; [reflexivity|]. exists "". rewrite append_nil_r.
      split; [reflexivity|]. split; reflexivity.
    + split; [reflexivity|].
      exists (format_trajectory_as_instructions text).
      split; [reflexivity|].
      apply String.eqb_neq in He. apply format_nonempty in He.
      split; [contradiction|].
      intros Ht. exfalso. apply He.
      apply (f_equal objective) in Ht. cbn in Ht.
      now apply append_same_length in Ht.
  - intros [= <-]. split; [reflexivity|]. exists "".
    rewrite append_nil_r. split; [reflexivity|]. split; reflexivity.
Qed.

Lemma step_line_nonempty (k : nat) (name : string) (details : Py.dict) :
  step_line k name details <> "".
Proof.
  unfold step_line. intros H. apply (f_equal String.length) in H.
  rewrite !append_length in H. cbn in H. lia.
Qed.

Lemma join_nonempty (p : string) (rest : list string) :
  p <> "" -> PyStr.join PyStr.nl (p :: rest) <> "".
Proof.
  intros Hp. destruct rest as [|q rest]; [exact Hp|].
  cbn [PyStr.join]. intros H. apply (f_equal String.length) in H.
  rewrite append_length in H. cbn in H.
  destruct p; [contradiction | cbn in H; lia].
Qed.

Lemma format_events_lines_nonempty (events : list event_row)
    (lines : list string) :
  format_events events [] 1 = Return lines ->
  lines = [] \/ PyStr.join PyStr.nl lines <> "".
Proof.
  intros H. apply format_events_surviving in H. cbn [app] in H.
  destruct (surviving events) as [|[name details] rest];
    cbn [number_from] in H.
  - now left.
  - right. subst lines. apply join_nonempty, step_line_nonempty.
Qed.

(** The outcome when both queries run and the loop ends normally. *)
Lemma retrieve_normal_flow (db : database) (t : task) (s : string)
    (trajectory_id u o : string) (q : Q) (lines : list string) :
  ~ gated (Some s) ->
  query_fault (db_faults db) = None ->
  candidate_query db (start_url t) (objective t) s
  = Some (trajectory_id, u, o, q) ->
  events_fault (db_faults db) = None ->
  format_events (events_query db trajectory_id) [] 1 = Return lines ->
  snd (retrieve_trajectory db t (Some s))
  = Return (if PyStr.join PyStr.nl lines =? "" then t
            else {| objective :=
                      (objective t
                       ++ format_trajectory_as_instructions
                            (PyStr.join PyStr.nl lines))%string;
                    start_url := start_url t |}).
Proof.
  intros Hg Hq Hc He Hf.
  rewrite (retrieve_open db t s Hg), after_gate_result, Hq, Hc, He.
  destruct (events_query db trajectory_id) as [|ev evs] eqn:Hev.
  - cbn in Hf. injection Hf as <-. reflexivity.
  - rewrite Hf. cbn [handled enhance].
    destruct (PyStr.join PyStr.nl lines =? ""); reflexivity.
Qed.

(** X2.  When both queries run and the loop over the events ends normally, the
    task is enhanced if and only if at least one step was emitted: with no
    step the task comes back unchanged, with one or more the objective is
    the original followed by the wrapped steps. *)
Theorem enhanced_iff_steps (db : database) (t : task) (s : string)
    (trajectory_id u o : string) (q : Q) (lines : list string) :
  ~ gated (Some s) ->
  query_fault (db_faults db) = None ->
  candidate_query db (start_url t) (objective t) s
  = Some (trajectory_id, u, o, q) ->
  events_fault (db_faults db) = None ->
  format_events (events_query db trajectory_id) [] 1 = Return lines ->
  exists t',
    snd (retrieve_trajectory db t (Some s)) = Return t'
    /\ (t' = t <-> lines = [])
    /\ (lines <> [] ->
        t' = {| objective :=
                  (objective t
                   ++ format_trajectory_as_instructions
                        (PyStr.join PyStr.nl lines))%string;
                start_url := start_url t |}).
Proof.
  intros Hg Hq Hc He Hf.
  rewrite (retrieve_normal_flow db t s _ _ _ _ _ Hg Hq Hc He Hf).
  destruct (format_events_lines_nonempty _ _ Hf) as [->|Hne].
  - cbn. exists t. split; [reflexivity|]. split; [tauto|congruence].
  - apply String.eqb_neq in Hne as Hb. rewrite Hb.
    eexists. split; [reflexivity|].
    split; [|reflexivity].
    split.
    + intros Ht. exfalso. apply (format_nonempty _ Hne).
      apply (f_equal objective) in Ht. cbn in Ht.
      now apply append_same_length in Ht.
    + intros ->. now cbn in Hne.
Qed.

(** X3.  Steps whose text carries the marker ["## Similar Trajectory"] (from a
    tool name or an argument) are appended to the objective as they are,
    without the directive header. *)
Theorem marked_steps_appended_raw (db : database) (t : task) (s : string)
    (trajectory_id u o : string) (q : Q) (lines : list string) :
  ~ gated (Some s) ->
  query_fault (db_faults db) = None ->
  candidate_query db (start_url t) (objective t) s
  = Some (trajectory_id, u, o, q) ->
  events_fault (db_faults db) = None ->
  format_events (events_query db trajectory_id) [] 1 = Return lines ->
  PyStr.contains marker (PyStr.join PyStr.nl lines) = true ->
  snd (retrieve_trajectory db t (Some s))
  = Return {| objective :=
                (objective t ++ PyStr.join PyStr.nl lines)%string;
              start_url := start_url t |}.
Proof.
  intros Hg Hq Hc He Hf Hm.
  rewrite (retrieve_normal_flow db t s _ _ _ _ _ Hg Hq Hc He Hf).
  destruct (PyStr.join PyStr.nl lines =? "") eqn:Hb.
  - apply String.eqb_eq in Hb. rewrite Hb in Hm. discriminate.
  - now destruct (format_marked _ Hm) as [-> _].
Qed.

End RetrievalShape.

(** Discharges [~ gated (Some s)] for a concrete [s]. *)
Ltac not_gated :=
  let H := fresh in intros H; apply gated_closed in H; discriminate H.

Lemma retrieve_extends_objective_witness :
  start_url sample_enhanced_task = start_url scenario_a_task
  /\ exists suffix,
       objective sample_enhanced_task
       = (objective scenario_a_task ++ suffix)%string
       /\ (suffix = "" <-> sample_enhanced_task = scenario_a_task).
Proof.
  apply (retrieve_extends_objective (L := sample_library) sample_db
           scenario_a_task (Some "org-1") sample_enhanced_task).
  reflexivity.
Defined.

Lemma enhanced_iff_steps_witness :
  exists t',
    snd (retrieve_trajectory (L := sample_library) sample_db scenario_a_task
           (Some "org-1")) = Return t'
    /\ (t' = scenario_a_task
        <-> ["1. click({...})"; "2. type({...})"] = [])
    /\ (["1. click({...})"; "2. type({...})"] <> [] ->
        t' = {| objective :=
                  (objective scenario_a_task
                   ++ format_trajectory_as_instructions
                        (PyStr.join PyStr.nl
                           ["1. click({...})"; "2. type({...})"]))%string;
                start_url := start_url scenario_a_task |}).
Proof.
  apply (enhanced_iff_steps (L := sample_library) sample_db scenario_a_task
           "org-1" "t4" "https://x" "find price" (10 # 10)%Q).
  - not_gated.
  - reflexivity.
  - reflexivity.
  - reflexivity.
  - reflexivity.
Defined.

Lemma marked_steps_appended_raw_witness :
  snd (retrieve_trajectory (L := sample_library) marked_db scenario_a_task
         (Some "org-1"))
  = Return {| objective :=
                (objective scenario_a_task
                 ++ PyStr.join PyStr.nl ["1. ## Similar Trajectory({})"])%string;
              start_url := start_url scenario_a_task |}.
Proof.
  apply (marked_steps_appended_raw (L := sample_library) marked_db
           scenario_a_task "org-1" "t1" "https://x" "find price" (10 # 10)%Q).
  - not_gated.
  - reflexivity.
  - reflexivity.
  - reflexivity.
  - reflexivity.
  - reflexivity.
Defined.

(* ------------------------------------------------------------------ *)
(** ** Further properties of the two queries *)
(* ------------------------------------------------------------------ *)

Section OrderBySorted.
Context {A : Type} (before : A -> A -> bool).
Hypothesis before_total : forall a b, before a b = true \/ before b a = true.
Hypothesis before_trans :
  forall a b c, before a b = true -> before b c = true -> before a c = true.

Lemma insert_by_perm (x : A) (l : list A) :
  Permutation (insert_by before x l) (x :: l).
Proof.
  induction l as [|y l IH]; cbn; [reflexivity|].
  destruct (before x y); [reflexivity|].
  rewrite IH. apply perm_swap.
Qed.

Lemma order_by_perm (l : list A) : Permutation (order_by before l) l.
Proof.
  induction l as [|x l IH]; cbn; [reflexivity|].
  rewrite insert_by_perm. now constructor.
Qed.

Lemma insert_by_sorted (x : A) (l : list A) :
  StronglySorted (fun a b => before a b = true) l ->
  StronglySorted (fun a b => before a b = true) (insert_by before x l).
Proof.
  induction l as [|y l IH]; cbn; intros Hs.
  - repeat constructor.
  - apply StronglySorted_inv in Hs as [Hs Hy].
    destruct (before x y) eqn:Hxy.
    + constructor; [now constructor|].
      constructor; [exact Hxy|].
      rewrite Forall_forall in *. intros z Hz.
      eapply before_trans; [exact Hxy | now apply Hy].
    + constructor; [now apply IH|].
      rewrite Forall_forall in *. intros z Hz.
      apply insert_by_in in Hz as [->|Hz]; [|now apply Hy].
      destruct (before_total x y); congruence.
Qed.

Lemma order_by_sorted (l : list A) :
  StronglySorted (fun a b => before a b = true) (order_by before l).
Proof.
  induction l as [|x l IH]; cbn; [constructor|].
  now apply insert_by_sorted.
Qed.

End OrderBySorted.

Lemma filter_filter_implied {A} (f g : A -> bool) (l : list A) :
  (forall x, f x = true -> g x = true) ->
  filter f (filter g l) = filter f l.
Proof.
  intros Himp. induction l as [|x l IH]; cbn; [reflexivity|].
  destruct (g x) eqn:Hg; cbn.
  - now rewrite IH.
  - destruct (f x) eqn:Hf; [|exact IH].
    apply Himp in Hf. congruence.
Qed.

Lemma filter_length_lt {A} (f : A -> bool) (l : list A) (x : A) :
  In x l -> f x = false -> length (filter f l) < length l.
Proof.
  induction l as [|y l IH]; cbn; [contradiction|].
  intros [->|Hin] Hf.
  - rewrite Hf. pose proof (filter_length_le f l). lia.
  - specialize (IH Hin Hf). destruct (f y); cbn; lia.
Qed.

Section Queries.
Context {L : Library}.

Lemma index_order_total (a b : trajectory_event) :
  (te_index a <=? te_index b)%Z = true \/ (te_index b <=? te_index a)%Z = true.
Proof. rewrite !Z.leb_le. lia. Qed.

Lemma index_order_trans (a b c : trajectory_event) :
  (te_index a <=? te_index b)%Z = true ->
  (te_index b <=? te_index c)%Z = true ->
  (te_index a <=? te_index c)%Z = true.
Proof. rewrite !Z.leb_le. lia. Qed.

(** X4.  The events query hands the loop every matching event exactly once, in
    ascending order of [index], whatever the order of the rows in the
    table. *)
Theorem events_in_index_order (db : database) (trajectory_id : string) :
  StronglySorted (fun a b => (event_index a <= event_index b)%Z)
    (events_query db trajectory_id)
  /\ Permutation (events_query db trajectory_id)
       (map select_event
          (filter (events_where trajectory_id) (trajectory_event_table db))).
Proof.
  unfold events_query. split.
  - pose proof (order_by_sorted _ index_order_total index_order_trans
                  (filter (events_where trajectory_id)
                     (trajectory_event_table db))) as Hs.
    induction Hs as [|te l Hs IH Hall]; cbn; constructor; [exact IH|].
    rewrite Forall_forall in *. intros ev Hev.
    apply in_map_iff in Hev as (te' & <- & Hin).
    apply Hall in Hin. now apply Z.leb_le in Hin.
  - apply Permutation_map, order_by_perm.
Qed.

Lemma answer_row_selected (db : database) (tj : trajectory)
    (te : trajectory_event) :
  In te (trajectory_event_table db) ->
  successful_answer tj te ->
  In (select_event te) (events_query db (t_id tj)).
Proof.
  intros Hin (Hid & Hty & Hk & _).
  unfold events_query. apply in_map. apply order_by_in. apply filter_In.
  split; [exact Hin|]. unfold events_where.
  rewrite !andb_true_iff, !String.eqb_eq, text_is_spec. auto.
Qed.

(** X5.  A selected trajectory always has rows in the events query: the event
    required by the EXISTS subquery is one of them, so the test
    [if not events] only fires when the store changes between the two
    queries. *)
Theorem selected_has_events (db : database) (url obj s : string)
    (trajectory_id u o : string) (q : Q) :
  candidate_query db url obj s = Some (trajectory_id, u, o, q) ->
  events_query db trajectory_id <> []
  /\ exists te,
       In te (trajectory_event_table db)
       /\ te_trajectory_id te = trajectory_id
       /\ In (select_event te) (events_query db trajectory_id).
Proof.
  intros H.
  apply candidate_query_some in H as (tj & _ & [_ Hel] & Hrow & _).
  injection Hrow as -> _ _ _.
  destruct Hel as (_ & _ & _ & _ & _ & te & Hin & Hsa).
  pose proof (answer_row_selected db tj te Hin Hsa) as Hrow.
  split.
  - intros Hnil. rewrite Hnil in Hrow. destruct Hrow.
  - exists te. split; [exact Hin|]. split; [apply Hsa|exact Hrow].
Qed.

Lemma successful_answer_named (tj : trajectory) (te : trajectory_event) :
  (forall v, jsonb_out v <> "answer") ->
  successful_answer tj te ->
  answer_named (select_event te) = true.
Proof.
  intros Hout (_ & _ & _ & Hn & _).
  unfold select_event, answer_named.
  unfold jsonb_get_text in Hn.
  destruct (jsonb_get (jsonb_get (te_data te) "event") "tool_req")
    as [[| | | | | |d]|] eqn:Hreq; cbn in Hn; try discriminate.
  cbn [decode_column].
  destruct (Py.lookup "tool_name" d) as [v|] eqn:Hl; [|discriminate].
  destruct d as [|p d']; [discriminate Hl|].
  unfold load_tool_req, tool_name_of, Py.get.
  cbn [Py.truthy negb]. rewrite Hl.
  destruct v as [|[|]| | |name| |]; try discriminate;
    try (injection Hn as Hn; now apply Hout in Hn).
  injection Hn as ->. reflexivity.
Qed.

(** X6.  Provided the text of a jsonb number, array or object is never the
    word "answer", the rows handed to the loop for a selected trajectory
    include an event named "answer", which the loop skips: the formatted
    output has strictly fewer lines than the trajectory has tool-result
    events. *)
Theorem fewer_lines_than_events (db : database) (url obj s : string)
    (trajectory_id u o : string) (q : Q) :
  (forall v, jsonb_out v <> "answer") ->
  candidate_query db url obj s = Some (trajectory_id, u, o, q) ->
  (exists ev, In ev (events_query db trajectory_id)
              /\ answer_named ev = true)
  /\ forall lines,
       format_events (events_query db trajectory_id) [] 1 = Return lines ->
       length lines < length (events_query db trajectory_id).
Proof.
  intros Hout H.
  apply candidate_query_some in H as (tj & _ & [_ Hel] & Hrow & _).
  injection Hrow as -> _ _ _.
  destruct Hel as (_ & _ & _ & _ & _ & te & Hin & Hsa).
  pose proof (answer_row_selected db tj te Hin Hsa) as Hrow.
  pose proof (successful_answer_named tj te Hout Hsa) as Hnamed.
  split; [eauto|].
  intros lines Hf.
  apply format_events_surviving in Hf. cbn [app] in Hf. subst lines.
  rewrite number_from_length, surviving_length.
  apply (filter_length_lt _ _ _ Hrow).
  unfold emits. now rewrite (answer_named_continue _ Hnamed).
Qed.

(** X7.  The statements of one retrieval, in order: the extension statements,
    then -- only past the gate -- the candidate query, then -- only when it
    ran and selected a row -- the events query for that row's id.  Nothing
    else is sent, and never more than four statements. *)
Theorem statement_trace_shape (db : database) (t : task)
    (org_id : option string) :
  (gated org_id /\ fst (retrieve_trajectory db t org_id) = extension_trace db)
  \/ (exists s,
        org_id = Some s
        /\ ~ gated org_id
        /\ fst (retrieve_trajectory db t org_id)
           = extension_trace db
             ++ CandidateQuery (start_url t) (objective t) s
                :: events_statement db (start_url t) (objective t) s).
Proof.
  rewrite retrieve_trajectory_split. cbn [fst].
  destruct (gate_closed org_id) eqn:Hc.
  - left. apply gated_closed in Hc. split; [exact Hc|].
    now rewrite get_similar_trajectory_closed.
  - right.
    assert (Hg : ~ gated org_id) by (rewrite gated_closed, Hc; discriminate).
    destruct (get_similar_trajectory_open db (objective t) (start_url t)
                org_id Hg) as (s & -> & Heq).
    exists s. split; [reflexivity|]. split; [exact Hg|].
    rewrite Heq. cbn [fst]. now rewrite after_gate_trace.
Qed.

Lemma candidate_query_restrict (db : database) (url obj s : string) :
  candidate_query (restrict_to_tenant s db) url obj s
  = candidate_query db url obj s.
Proof.
  unfold candidate_query, candidates.
  change (trajectory_table (restrict_to_tenant s db))
    with (filter (fun t => text_is (t_org_id t) s) (trajectory_table db)).
  change (candidate_where (restrict_to_tenant s db) url obj s)
    with (candidate_where db url obj s).
  rewrite filter_filter_implied; [reflexivity|].
  intros x Hx. apply candidate_where_spec in Hx as [_ (Horg & _)].
  now apply text_is_spec.
Qed.

(** X9.  Retrieval for a tenant does not depend on the trajectories of other
    tenants: on the store stripped of every other tenant's trajectories
    it sends the same statements and returns the same task. *)
Theorem tenant_noninterference (db : database) (t : task) (s : string) :
  retrieve_trajectory (restrict_to_tenant s db) t (Some s)
  = retrieve_trajectory db t (Some s).
Proof.
  rewrite !retrieve_trajectory_split.
  assert (Heq : get_similar_trajectory (restrict_to_tenant s db)
                  (objective t) (start_url t) (Some s)
                = get_similar_trajectory db (objective t) (start_url t)
                    (Some s)).
  { destruct (gate_closed (Some s)) eqn:Hc.
    - apply gated_closed in Hc.
      now rewrite !get_similar_trajectory_closed.
    - assert (Hg : ~ gated (Some s))
        by (rewrite gated_closed, Hc; discriminate).
      destruct (get_similar_trajectory_open (restrict_to_tenant s db)
                  (objective t) (start_url t) (Some s) Hg)
        as (s1 & [= <-] & ->).
      destruct (get_similar_trajectory_open db (objective t) (start_url t)
                  (Some s) Hg) as (s2 & [= <-] & ->).
      assert (Ha : after_gate (restrict_to_tenant s db) (objective t)
                     (start_url t) s
                   = after_gate db (objective t) (start_url t) s).
      { unfold after_gate. rewrite candidate_query_restrict. reflexivity. }
      rewrite Ha. reflexivity. }
  now rewrite Heq.
Qed.

End Queries.

(* ------------------------------------------------------------------ *)
(** ** Further properties of the loop over the events *)
(* ------------------------------------------------------------------ *)

Lemma contains_cons (needle : string) (c : ascii) (s : string) :
  PyStr.contains needle s = true ->
  PyStr.contains needle (String c s) = true.
Proof.
  intros H. cbn -[prefix]. rewrite H.
  now destruct (prefix needle (String c s)).
Qed.

Lemma contains_prefix (needle s : string) :
  prefix needle s = true -> PyStr.contains needle s = true.
Proof. intros H. destruct s; cbn -[prefix]; now rewrite H. Qed.

Lemma prefix_app_contains (a b s : string) :
  prefix (a ++ b) s = true -> PyStr.contains b s = true.
Proof.
  revert s. induction a as [|c a IH]; intros s H.
  - now apply contains_prefix.
  - destruct s as [|d s]; simpl in H; [discriminate H|].
    destruct (ascii_dec c d); [|discriminate H].
    apply contains_cons. now apply IH.
Qed.

Lemma contains_app (a b s : string) :
  PyStr.contains (a ++ b) s = true -> PyStr.contains b s = true.
Proof.
  induction s as [|c s IH]; cbn -[prefix].
  - destruct (prefix (a ++ b) "") eqn:Hp; [|discriminate].
    intros _. now apply prefix_app_contains in Hp.
  - destruct (prefix (a ++ b) (String c s)) eqn:Hp.
    + intros _. now apply prefix_app_contains in Hp.
    + intros H. fold (PyStr.contains b (String c s)).
      apply contains_cons. now apply IH.
Qed.

Lemma replace_go_absent (old new s : string) :
  PyStr.contains old s = false -> PyStr.replace_go old new 0 s = s.
Proof.
  induction s as [|c s IH]; [reflexivity|].
  cbn -[prefix]. destruct (prefix old (String c s)); [discriminate|].
  intros H. now rewrite IH.
Qed.

Lemma replace_absent (old new s : string) :
  PyStr.contains old s = false -> PyStr.replace old new s = s.
Proof.
  destruct old as [|c old].
  - intros H. destruct s; cbn in H; discriminate H.
  - apply replace_go_absent.
Qed.

Lemma replace_go_shrinks (old : string) (skip : nat) (s : string) :
  String.length (PyStr.replace_go old "" skip s) <= String.length s.
Proof.
  revert skip. induction s as [|c s IH]; intros skip; [reflexivity|].
  cbn -[prefix]. destruct skip as [|k].
  - destruct (prefix old (String c s)); cbn.
    + specialize (IH (String.length old - 1)). lia.
    + specialize (IH 0). lia.
  - specialize (IH k). lia.
Qed.

Lemma lookup_set_same (key : string) (v : Py.value) (d : Py.dict) :
  Py.lookup key (Py.set key v d) = Some v.
Proof.
  induction d as [|[k w] d IH]; cbn.
  - now rewrite String.eqb_refl.
  - destruct (k =? key) eqn:He; cbn; rewrite He; auto.
Qed.

Lemma lookup_set_other (key key' : string) (v : Py.value) (d : Py.dict) :
  key' <> key -> Py.lookup key' (Py.set key v d) = Py.lookup key' d.
Proof.
  intros Hne. induction d as [|[k w] d IH]; cbn.
  - apply String.eqb_neq in Hne. rewrite String.eqb_sym in Hne.
    now rewrite Hne.
  - destruct (k =? key) eqn:He; cbn.
    + apply String.eqb_eq in He. subst k.
      apply String.eqb_neq in Hne. rewrite String.eqb_sym in Hne.
      now rewrite Hne.
    + now rewrite IH.
Qed.

Section Loop.
Context {L : Library}.

(** X10.  A tool name loses at most characters in the simplification, and a name
    without ["_web"] in it is kept as it is. *)
Theorem simplify_name_plain (s : string) :
  exists s',
    simplify_name (Py.Str s) = Return s'
    /\ String.length s' <= String.length s
    /\ (PyStr.contains "_web" s = false -> s' = s).
Proof.
  eexists. split; [reflexivity|]. split.
  - unfold PyStr.replace.
    etransitivity; [apply replace_go_shrinks|apply replace_go_shrinks].
  - intros H.
    assert (Hl : PyStr.contains "_localizer_web" s = false).
    { destruct (PyStr.contains "_localizer_web" s) eqn:Hc; [|reflexivity].
      apply (contains_app "_localizer" "_web") in Hc. congruence. }
    now rewrite (replace_absent _ _ _ Hl), (replace_absent _ _ _ H).
Qed.

Lemma format_events_raise_any (events : list event_row) (ev : event_row)
    (e : exn) (acc : list string) (n : nat) :
  In ev events -> event_action ev = Raise e ->
  exists e', format_events events acc n = Raise e'.
Proof.
  revert acc n. induction events as [|x rest IH]; intros acc n; cbn;
    [contradiction|].
  intros [->|Hin] He.
  - rewrite He. eauto.
  - destruct (event_action x) as [[|? ?]|?]; eauto.
Qed.

(** X11.  One event that makes the loop body raise -- a tool request that is a
    number or a list, a tool name that is not a string, arguments that
    are not a mapping -- voids the whole trajectory: whatever its position
    among the events, retrieval returns the task unchanged. *)
Theorem malformed_event_voids (db : database) (t : task) (s : string)
    (trajectory_id u o : string) (q : Q) (ev : event_row) (e : exn) :
  ~ gated (Some s) ->
  query_fault (db_faults db) = None ->
  candidate_query db (start_url t) (objective t) s
  = Some (trajectory_id, u, o, q) ->
  events_fault (db_faults db) = None ->
  In ev (events_query db trajectory_id) ->
  event_action ev = Raise e ->
  snd (retrieve_trajectory db t (Some s)) = Return t.
Proof.
  intros Hg Hq Hc He Hin Hev.
  rewrite (retrieve_open db t s Hg), after_gate_result, Hq, Hc, He.
  destruct (format_events_raise_any _ _ _ [] 1 Hin Hev) as [e' Hf].
  destruct (events_query db trajectory_id) as [|x rest]; [destruct Hin|].
  rewrite Hf, handled_masked; [reflexivity|].
  apply local_error_masked. eapply format_events_local; eauto.
Qed.

Lemma add_coordinates_keeps (res : Py.value) (d d' : Py.dict) (key : string) :
  add_coordinates res d = Return d' ->
  key <> "coordinates" -> Py.lookup key d' = Py.lookup key d.
Proof.
  unfold add_coordinates. intros H Hk.
  apply rbind_return in H as ([|] & _ & H); [|now injection H as <-].
  apply rbind_return in H as (lo & _ & H).
  apply rbind_return in H as (hx & _ & H).
  apply rbind_return in H as ([|] & _ & H); [|now injection H as <-].
  apply rbind_return in H as (x & _ & H).
  apply rbind_return in H as (y & _ & H).
  injection H as <-. now apply lookup_set_other.
Qed.

Lemma add_viewport_size_keeps (res : Py.value) (d d' : Py.dict)
    (key : string) :
  add_viewport_size res d = Return d' ->
  key <> "viewport_size" -> Py.lookup key d' = Py.lookup key d.
Proof.
  unfold add_viewport_size. intros H Hk.
  apply rbind_return in H as ([|] & _ & H); [|now injection H as <-].
  apply rbind_return in H as (v & _ & H).
  injection H as <-. now apply lookup_set_other.
Qed.

Lemma add_element_keeps (res : Py.value) (d d' : Py.dict) (key : string) :
  add_element res d = Return d' ->
  (key <> "element" \/ Py.mem "element" d = true) ->
  Py.lookup key d' = Py.lookup key d.
Proof.
  unfold add_element. intros H Hk.
  apply rbind_return in H as ([|] & _ & H); [|now injection H as <-].
  destruct (Py.mem "element" d) eqn:Hm; [now injection H as <-|].
  destruct Hk as [Hk|Hk]; [|discriminate].
  apply rbind_return in H as (v & _ & H).
  injection H as <-. now apply lookup_set_other.
Qed.

(** X12.  The details of an emitted step start from the tool arguments and keep
    them: every argument under a key other than ["coordinates"],
    ["viewport_size"] and ["element"] is in the details unchanged, and an
    ["element"] argument is never replaced by the result's element. *)
Theorem details_keep_args (i : Z) (req res : Py.value)
    (simplified_name : string) (action_details : Py.dict) :
  event_action (i, req, res) = Return (Step simplified_name action_details) ->
  exists req' tool_args args,
    load_tool_req req = Some req'
    /\ tool_args_of req' = Return tool_args
    /\ dict_of tool_args = Return args
    /\ (forall key,
          key <> "coordinates" -> key <> "viewport_size" ->
          key <> "element" ->
          Py.lookup key action_details = Py.lookup key args)
    /\ (forall v,
          Py.lookup "element" args = Some v ->
          Py.lookup "element" action_details = Some v).
Proof.
  unfold event_action.
  destruct (load_tool_req req) as [req'|]; [|discriminate].
  intros H.
  apply rbind_return in H as (tn & _ & H).
  apply rbind_return in H as (tool_args & Hargs & H).
  apply rbind_return in H as ([|] & _ & H); [discriminate|].
  apply rbind_return in H as (sn & _ & H).
  apply rbind_return in H as (d0 & Hd0 & H).
  apply rbind_return in H as (d1 & Hd1 & H).
  apply rbind_return in H as (d2 & Hd2 & H).
  apply rbind_return in H as (d3 & Hd3 & H).
  injection H as _ <-.
  exists req', tool_args, d0.
  split; [reflexivity|]. split; [exact Hargs|]. split; [exact Hd0|].
  split.
  - intros key H1 H2 H3.
    rewrite (add_element_keeps _ _ _ key Hd3) by now left.
    rewrite (add_viewport_size_keeps _ _ _ key Hd2) by assumption.
    now rewrite (add_coordinates_keeps _ _ _ key Hd1).
  - intros v Hv.
    assert (H2 : Py.lookup "element" d2 = Some v).
    { rewrite (add_viewport_size_keeps _ _ _ "element" Hd2) by discriminate.
      now rewrite (add_coordinates_keeps _ _ _ "element" Hd1)
        by discriminate. }
    rewrite (add_element_keeps _ _ _ "element" Hd3); [exact H2|].
    right. unfold Py.mem. now rewrite H2.
Qed.

End Loop.

(* ------------------------------------------------------------------ *)
(** ** Further properties of the launch step and of the workflow *)
(* ------------------------------------------------------------------ *)

(** What a step under a retry policy does, read off its history. *)
Lemma retry_shape {A} mk (activity : nat -> result A) k n tr r :
  retry_activity mk k n activity = (tr, r) ->
  exists m,
    m <= k
    /\ tr = map mk (seq n (S m))
    /\ (forall i, n <= i < n + m -> exists e, activity i = Raise e)
    /\ match r with
       | Return a => activity (n + m) = Return a
       | Raise e =>
           m = k /\ exists e', activity (n + m) = Raise e'
                               /\ e = ActivityError e'
       end.
Proof.
  revert n tr r. induction k as [|k IH]; intros n tr r; cbn.
  - destruct (activity n) as [a|e] eqn:Ha; intros [= <- <-];
      exists 0; rewrite Nat.add_0_r;
      (split; [lia|]); (split; [reflexivity|]); (split; [intros; lia|]);
      eauto.
  - destruct (activity n) as [a|e] eqn:Ha.
    + intros [= <- <-]. exists 0. rewrite Nat.add_0_r.
      split; [lia|]. split; [reflexivity|]. split; [intros; lia|]. exact Ha.
    + destruct (retry_activity mk k (S n) activity) as [tr' r'] eqn:Hr.
      intros [= <- <-].
      destruct (IH _ _ _ Hr) as (m & Hm & -> & Hfail & Hlast).
      exists (S m). split; [lia|]. split; [reflexivity|].
      replace (n + S m) with (S n + m) by lia.
      split.
      * intros i Hi. destruct (Nat.eq_dec i n) as [->|Hne]; [eauto|].
        apply Hfail. lia.
      * destruct r'; [exact Hlast|].
        destruct Hlast as (-> & Hl). split; [reflexivity|exact Hl].
Qed.

Section Workflow.
Context {L : Library}.

Lemma optional_header_in (setting : string) (h x : string * string) :
  In x (if setting =? "" then [] else [h]) <-> setting <> "" /\ x = h.
Proof.
  destruct (setting =? "") eqn:He.
  - apply String.eqb_eq in He. cbn. intuition.
  - apply String.eqb_neq in He. cbn. intuition.
Qed.

Lemma launch_headers_in (cfg : config) (x : string * string) :
  In x (launch_headers cfg)
  <-> x = ("Content-Type", "application/json")
      \/ (AGENT_API_TOKEN cfg <> ""
          /\ x = ("Authorization", ("Bearer " ++ AGENT_API_TOKEN cfg)%string))
      \/ (AGENT_USER_SUB cfg <> "" /\ x = ("X-User-Sub", AGENT_USER_SUB cfg))
      \/ (AGENT_USER_ORG cfg <> "" /\ x = ("X-User-Org", AGENT_USER_ORG cfg)).
Proof.
  unfold launch_headers. rewrite !in_app_iff, !optional_header_in.
  cbn. intuition.
Qed.

(** X13.  The headers of the launch request: [Content-Type] always, each
    optional header exactly when its setting is non-empty and with that
    setting as its value; no header has an empty value or occurs twice;
    and the body carries the task's two fields unchanged. *)
Theorem launch_request_shape (cfg : config) (t : task) (is_public : bool) :
  let req := launch_request cfg t is_public in
  req_task req = t
  /\ req_is_public req = is_public
  /\ In ("Content-Type", "application/json") (req_headers req)
  /\ (forall v, In ("Authorization", v) (req_headers req)
                <-> AGENT_API_TOKEN cfg <> ""
                    /\ v = ("Bearer " ++ AGENT_API_TOKEN cfg)%string)
  /\ (forall v, In ("X-User-Sub", v) (req_headers req)
                <-> AGENT_USER_SUB cfg <> "" /\ v = AGENT_USER_SUB cfg)
  /\ (forall v, In ("X-User-Org", v) (req_headers req)
                <-> AGENT_USER_ORG cfg <> "" /\ v = AGENT_USER_ORG cfg)
  /\ (forall name v, In (name, v) (req_headers req) -> v <> "")
  /\ NoDup (map fst (req_headers req)).
Proof.
  cbn [launch_request req_task req_is_public req_headers].
  split; [now destruct t|]. split; [reflexivity|].
  split; [apply launch_headers_in; now left|].
  split; [|split; [|split; [|split]]].
  - intros v. rewrite launch_headers_in. split.
    + intros [H|[[Hn H]|[[Hn H]|[Hn H]]]]; try discriminate H.
      injection H as ->. auto.
    + intros [Hn ->]. auto.
  - intros v. rewrite launch_headers_in. split.
    + intros [H|[[Hn H]|[[Hn H]|[Hn H]]]]; try discriminate H.
      injection H as ->. auto.
    + intros [Hn ->]. auto.
  - intros v. rewrite launch_headers_in. split.
    + intros [H|[[Hn H]|[[Hn H]|[Hn H]]]]; try discriminate H.
      injection H as ->. auto.
    + intros [Hn ->]. auto 6.
  - intros name v. rewrite launch_headers_in.
    intros [H|[[Hn H]|[[Hn H]|[Hn H]]]]; injection H as -> ->;
      try assumption; discriminate.
  - unfold launch_headers.
    destruct (AGENT_API_TOKEN cfg =? "");
      destruct (AGENT_USER_SUB cfg =? "");
      destruct (AGENT_USER_ORG cfg =? "");
      cbn; repeat constructor; cbn; intuition discriminate.
Qed.

End Workflow.

Section Orchestration.
Context {L : Library}.

Lemma launch_agent_return cfg post t is_public v :
  launch_agent cfg post t is_public = Return v ->
  (exists r content,
     post (launch_request cfg t is_public) = Return r
     /\ (200 <= status_code r <= 299)%Z
     /\ json_loads (body r) = Some content
     /\ v = launch_success content)
  \/ (exists msg, v = launch_failure msg).
Proof.
  unfold launch_agent.
  destruct (post (launch_request cfg t is_public)) as [r|e] eqn:Hp;
    cbn [rbind].
  - unfold raise_for_status.
    destruct ((200 <=? status_code r)%Z && (status_code r <=? 299)%Z) eqn:Hs;
      cbn [rbind except_http_error].
    + unfold response_json.
      destruct (json_loads (body r)) as [content|] eqn:Hj; cbn;
        [|discriminate].
      intros [= <-]. left. exists r, content.
      apply andb_true_iff in Hs as [H1 H2].
      repeat split; auto; lia.
    + intros [= <-]. right. eexists. reflexivity.
  - destruct e; cbn; try discriminate.
    intros [= <-]. right. eexists. reflexivity.
Qed.

(** X14.  The history of a run: between 1 and 3 retrieval attempts numbered from
    1, followed by at most 2 launch attempts numbered from 1; and no
    launch is attempted exactly when retrieval raised on all three of its
    attempts. *)
Theorem attempt_budgets (cfg : config) (env : environment) (t : task)
    (is_public : bool) (org_id : option string) :
  exists k l,
    1 <= k <= 3
    /\ l <= 2
    /\ fst (AgentRouterWorkflow.run cfg env t is_public org_id)
       = map RetrieveAttempt (seq 1 k) ++ map LaunchAttempt (seq 1 l)
    /\ (l = 0 <->
        forall n, 1 <= n <= 3 ->
          exists e,
            snd (retrieve_trajectory (store_at env n) t org_id) = Raise e).
Proof.
  unfold AgentRouterWorkflow.run, execute_activity,
    AgentRouterWorkflow.retrieve_maximum_attempts,
    AgentRouterWorkflow.launch_maximum_attempts.
  cbn [Nat.sub].
  destruct (retry_activity RetrieveAttempt 2 1
              (fun n => snd (retrieve_trajectory (store_at env n) t org_id)))
    as [tr1 [enhanced|e]] eqn:H1;
    apply retry_shape in H1 as (m & Hm & -> & Hfail & Hlast).
  - unfold sbind.
    destruct (retry_activity LaunchAttempt 1 1
                (fun n => launch_agent cfg (post_at env n) enhanced is_public))
      as [tr2 r2] eqn:H2.
    apply retry_shape in H2 as (m2 & Hm2 & -> & _ & _).
    exists (S m), (S m2).
    split; [lia|]. split; [lia|]. split; [reflexivity|].
    split; [discriminate|].
    intros Hall. destruct (Hall (1 + m) ltac:(lia)) as [e He].
    cbn beta in Hlast. congruence.
  - destruct Hlast as (-> & e' & He' & ->).
    exists 3, 0. split; [lia|]. split; [lia|].
    split; [cbn; reflexivity|].
    split; [|reflexivity].
    intros _ n Hn. destruct (Nat.eq_dec n 3) as [->|Hne]; [eauto|].
    apply Hfail. lia.
Qed.

(** X15.  When the first launch attempt raises instead of returning a value --
    the response of a 2xx status does not decode, or the call fails with
    an exception that is not an [httpx.HTTPError] -- a second attempt is
    made and decides the run: its value is the run's result, its
    exception fails the run; there is no third attempt. *)
Theorem launch_retried_after_exception (cfg : config) (env : environment)
    (t enhanced : task) (is_public : bool) (org_id : option string)
    (tr : list activity_attempt) (e : exn) :
  execute_activity RetrieveAttempt
    AgentRouterWorkflow.retrieve_maximum_attempts
    (fun n => snd (retrieve_trajectory (store_at env n) t org_id))
  = (tr, Return enhanced) ->
  launch_agent cfg (post_at env 1) enhanced is_public = Raise e ->
  AgentRouterWorkflow.run cfg env t is_public org_id
  = (tr ++ [LaunchAttempt 1; LaunchAttempt 2],
     match launch_agent cfg (post_at env 2) enhanced is_public with
     | Return v => Return v
     | Raise e2 => Raise (ActivityError e2)
     end).
Proof.
  intros Hret H1.
  unfold AgentRouterWorkflow.run. rewrite Hret. unfold sbind.
  unfold execute_activity, AgentRouterWorkflow.launch_maximum_attempts.
  cbn [Nat.sub retry_activity]. rewrite H1.
  destruct (launch_agent cfg (post_at env 2) enhanced is_public);
    reflexivity.
Qed.


Variable exn_text : exn -> string.

Lemma run_result_origin cfg env t is_public org_id v :
  snd (AgentRouterWorkflow.run cfg env t is_public org_id) = Return v ->
  exists n enhanced,
    1 <= n <= 2
    /\ launch_agent cfg (post_at env n) enhanced is_public = Return v.
Proof.
  unfold AgentRouterWorkflow.run, sbind.
  destruct (execute_activity RetrieveAttempt _ _) as [tr1 [enhanced|e]];
    [|discriminate].
  unfold execute_activity, AgentRouterWorkflow.launch_maximum_attempts.
  cbn [Nat.sub].
  destruct (retry_activity LaunchAttempt 1 1 _) as [tr2 r2] eqn:H2.
  cbn [snd]. intros ->.
  apply retry_shape in H2 as (m & Hm & _ & _ & Hlast).
  exists (1 + m), enhanced. split; [lia|exact Hlast].
Qed.

(** X17.  What the endpoint answers.  A returned content is the decoded body of
    a 2xx response that the remote executor gave to one of the (at most
    two) launch attempts; everything else -- a failed connection, a failed
    workflow, a launch failure -- is an [HTTPException] with status 500
    whose detail is a string. *)
Theorem run_agent_outcomes (cfg : config) (connect : result unit)
    (env : environment) (t : task) (is_public : bool)
    (org_id : option string) :
  match run_agent exn_text cfg connect env t is_public org_id with
  | Returned content =>
      exists n enhanced r,
        1 <= n <= 2
        /\ post_at env n (launch_request cfg enhanced is_public) = Return r
        /\ (200 <= status_code r <= 299)%Z
        /\ json_loads (body r) = Some content
  | HTTPException status detail =>
      status = 500%Z /\ exists msg, detail = Py.Str msg
  end.
Proof.
  unfold run_agent.
  destruct connect as [[]|e]; cbn [rbind]; [|eauto].
  destruct (snd (AgentRouterWorkflow.run cfg env t is_public org_id))
    as [v|e] eqn:Hrun; cbn [rbind]; [|eauto].
  apply run_result_origin in Hrun as (n & enhanced & Hn & Hl).
  apply launch_agent_return in Hl
    as [(r & content & Hp & Hs & Hj & ->)|(msg & ->)]; cbn.
  - exists n, enhanced, r. auto.
  - eauto.
Qed.

(** X18.  A non-2xx answer of the remote executor to the first launch attempt
    reaches the caller: the endpoint raises [HTTPException] 500 whose
    detail is the text of the HTTP error. *)
Theorem run_agent_reports_launch_failure (cfg : config) (env : environment)
    (t enhanced : task) (is_public : bool) (org_id : option string)
    (tr : list activity_attempt) (r : response) :
  execute_activity RetrieveAttempt
    AgentRouterWorkflow.retrieve_maximum_attempts
    (fun n => snd (retrieve_trajectory (store_at env n) t org_id))
  = (tr, Return enhanced) ->
  post_at env 1 (launch_request cfg enhanced is_public) = Return r ->
  ~ (200 <= status_code r <= 299)%Z ->
  run_agent exn_text cfg (Return tt) env t is_public org_id
  = HTTPException 500
      (Py.Str (status_error_message (status_code r)
                 (req_url (launch_request cfg enhanced is_public)))).
Proof.
  intros Hret Hp Hs.
  unfold run_agent. cbn [rbind].
  unfold AgentRouterWorkflow.run. rewrite Hret. unfold sbind.
  unfold execute_activity, AgentRouterWorkflow.launch_maximum_attempts.
  cbn [Nat.sub retry_activity].
  rewrite (launch_bad_status cfg (post_at env 1) enhanced is_public r Hp Hs).
  reflexivity.
Qed.

End Orchestration.

(* ------------------------------------------------------------------ *)
(** ** The further properties on the sample data *)
(* ------------------------------------------------------------------ *)

Lemma selected_has_events_witness :
  events_query (L := sample_library) sample_db "t4" <> []
  /\ exists te,
       In te (trajectory_event_table sample_db)
       /\ te_trajectory_id te = "t4"
       /\ In (select_event te)
            (events_query (L := sample_library) sample_db "t4").
Proof.
  apply (selected_has_events (L := sample_library) sample_db "https://x"
           "find price" "org-1" "t4" "https://x" "find price" (10 # 10)%Q).
  reflexivity.
Defined.

Lemma fewer_lines_than_events_witness :
  (exists ev, In ev (events_query (L := sample_library) sample_db "t4")
              /\ answer_named (L := sample_library) ev = true)
  /\ forall lines,
       format_events (L := sample_library)
         (events_query (L := sample_library) sample_db "t4") [] 1
       = Return lines ->
       length lines
       < length (events_query (L := sample_library) sample_db "t4").
Proof.
  apply (fewer_lines_than_events (L := sample_library) sample_db "https://x"
           "find price" "org-1" "t4" "https://x" "find price" (10 # 10)%Q).
  - intros v. cbn. discriminate.
  - reflexivity.
Defined.

Lemma malformed_event_voids_witness :
  snd (retrieve_trajectory (L := sample_library) malformed_db scenario_a_task
         (Some "org-1"))
  = Return scenario_a_task.
Proof.
  apply (malformed_event_voids (L := sample_library) malformed_db
           scenario_a_task "org-1" "t1" "https://x" "find price" (10 # 10)%Q
           (1%Z, Py.Int 5, Py.None_) AttributeError).
  - not_gated.
  - reflexivity.
  - reflexivity.
  - reflexivity.
  - right. left. reflexivity.
  - reflexivity.
Defined.

Lemma details_keep_args_witness :
  exists req' tool_args args,
    load_tool_req (L := sample_library) (snd (fst click_row)) = Some req'
    /\ tool_args_of req' = Return tool_args
    /\ dict_of (L := sample_library) tool_args = Return args
    /\ (forall key,
          key <> "coordinates" -> key <> "viewport_size" ->
          key <> "element" ->
          Py.lookup key click_details = Py.lookup key args)
    /\ (forall v,
          Py.lookup "element" args = Some v ->
          Py.lookup "element" click_details = Some v).
Proof.
  apply (details_keep_args (L := sample_library) 0%Z (snd (fst click_row))
           (snd click_row) "click" click_details).
  reflexivity.
Defined.

Lemma launch_retried_after_exception_witness :
  AgentRouterWorkflow.run (L := sample_library) sample_config recovering_env
    scenario_a_task true None
  = ([RetrieveAttempt 1] ++ [LaunchAttempt 1; LaunchAttempt 2],
     match launch_agent (L := sample_library) sample_config
             (post_at recovering_env 2) scenario_a_task true with
     | Return v => Return v
     | Raise e2 => Raise (ActivityError e2)
     end).
Proof.
  apply (launch_retried_after_exception (L := sample_library) sample_config
           recovering_env scenario_a_task scenario_a_task true None
           [RetrieveAttempt 1] JSONDecodeError).
  - reflexivity.
  - reflexivity.
Defined.


Lemma run_agent_reports_launch_failure_witness :
  run_agent (L := sample_library) sample_exn_text sample_config (Return tt)
    failing_env scenario_a_task true None
  = HTTPException 500
      (Py.Str (status_error_message (Library := sample_library) 500
                 (req_url (launch_request sample_config scenario_a_task
                             true)))).
Proof.
  apply (run_agent_reports_launch_failure (L := sample_library)
           sample_exn_text sample_config failing_env scenario_a_task
           scenario_a_task true None [RetrieveAttempt 1]
           {| status_code := 500; body := "" |}).
  - reflexivity.
  - reflexivity.
  - cbn. lia.
Defined.

(** The run that recovers on the second launch attempt returns the
    decoded payload; the endpoint hands that payload to the caller. *)
Example recovering_run_sample :
  snd (AgentRouterWorkflow.run (L := sample_library) sample_config
         recovering_env scenario_a_task true None)
  = Return (Py.Dict [("success", Py.Bool true); ("result", Py.Dict [])])
  /\ run_agent (L := sample_library) sample_exn_text sample_config
       (Return tt) recovering_env scenario_a_task true None
     = Returned (Py.Dict []).
Proof. split; reflexivity. Qed.

(** With every credential configured the request carries the four
    headers, in the order the source adds them. *)
Example launch_headers_sample :
  launch_headers full_config
  = [("Content-Type", "application/json");
     ("Authorization", "Bearer secret");
     ("X-User-Sub", "user-1");
     ("X-User-Org", "org-1")]
  /\ launch_headers sample_config = [("Content-Type", "application/json")].
Proof. split; reflexivity. Qed.
